(** * Mixed-layer box model: constants and forcing series

    A shallow embedding of [src/utils/constants.py] and
    [src/utils/data_input.py].

    The Python code is duck-typed over its numbers: the same function runs on
    Python floats and on numpy arrays of binary64 values.  The embedding keeps
    that shape.  Every function is written once, over an abstract number type
    [F] with the operations the source uses ([Arith] for [+ - * /], integer
    powers and literals, [Elementary] for [np.exp], [np.log], [np.sin], ...).
    Two interpretations are given:

    - [R], exact real arithmetic, with the transcendental functions of the
      Standard Library.  This is the arithmetic the formulas are meant in.
    - [float], IEEE 754 binary64 with round-to-nearest-even, the arithmetic
      Python and numpy run.  Only [Arith] is interpreted there: the kernel
      has no binary64 [exp], [log] or [sin].

    A statement proved for every [F] holds for both.  A statement proved at
    [R] says so, and so does one evaluated at [float]. *)

From Stdlib Require Import ZArith QArith Reals Lra Lia Floats Ascii.
From stdpp Require Import base list strings pretty gmap.

Set Warnings "-inexact-float".

(** ** Numbers *)

(** The arithmetic the source uses on a float (or, element-wise, on an array
    of floats). *)
Class Arith (F : Type) := {
  fadd : F -> F -> F;            (* x + y *)
  fsub : F -> F -> F;            (* x - y *)
  fmul : F -> F -> F;            (* x * y *)
  fdiv : F -> F -> F;            (* x / y *)
  fneg : F -> F;                 (* -x *)
  fpowi : F -> Z -> F;           (* x ** n, n a Python int *)
  fint : Z -> F;                 (* a Python int where a float is expected *)
  flit : Q -> F;                 (* a decimal literal of the source *)
  fis_zero : F -> bool           (* x == 0 *)
}.

(** The numpy functions of one argument, the constant [np.pi], and [**] with
    a float exponent. *)
Class Elementary (F : Type) `{Arith F} := {
  fexp : F -> F;                 (* np.exp *)
  flog : F -> F;                 (* np.log *)
  fsqrt : F -> F;                (* np.sqrt *)
  fsin : F -> F;                 (* np.sin *)
  fpi : F;                       (* np.pi *)
  fpow : F -> F -> F             (* x ** y, y a float *)
}.

Declare Scope num_scope.
Delimit Scope num_scope with num.
Infix "+." := fadd (at level 50, left associativity) : num_scope.
Infix "-." := fsub (at level 50, left associativity) : num_scope.
Infix "*." := fmul (at level 40, left associativity) : num_scope.
Infix "/." := fdiv (at level 40, left associativity) : num_scope.
Infix "**" := fpowi (at level 30, right associativity) : num_scope.
Infix "**." := fpow (at level 30, right associativity) : num_scope.
Notation "# q" := (flit q%Q) (at level 9, q at level 9, format "# q") : num_scope.
Notation "'i#' z" := (fint z%Z) (at level 9, z at level 9, format "'i#' z") : num_scope.
Local Open Scope num_scope.

(** *** Exact real arithmetic *)

Definition R_is_zero (x : R) : bool := if Req_dec_T x 0 then true else false.

#[export] Instance R_arith : Arith R := {|
  fadd := Rplus; fsub := Rminus; fmul := Rmult; fdiv := Rdiv; fneg := Ropp;
  fpowi := powerRZ; fint := IZR; flit := Q2R; fis_zero := R_is_zero
|}.

(** [x ** y] with a float exponent is [exp (y * ln x)], its value for a
    positive base. *)
#[export] Instance R_elementary : Elementary R := {|
  fexp := exp; flog := ln; fsqrt := R_sqrt.sqrt; fsin := sin; fpi := PI; fpow := Rpower
|}.

(** *** IEEE 754 binary64 *)

(** An integer, rounded to the nearest binary64 value (exact below 2^53). *)
Definition float_of_Z (z : Z) : float :=
  SF2Prim (binary_normalize prec emax z 0 false).

(** A decimal literal [n / 10^k].  When [n] and [10^k] are both binary64
    values, as for every literal of the source, the correctly rounded
    quotient is the binary64 value nearest to the literal: what Python's
    parser produces. *)
Definition float_of_Q (q : Q) : float :=
  PrimFloat.div (float_of_Z (Qnum q)) (float_of_Z (Zpos (Qden q))).

(** An integer power by repeated multiplication, as numpy computes
    [x ** 2]; exact whenever the power is a binary64 value, as for
    [20 ** 2] and [20 ** 3] (for other operands the C library's [pow] may
    differ from it in the last bit). *)
Fixpoint float_pow_pos (x : float) (n : nat) : float :=
  match n with
  | O => 1%float
  | S O => x
  | S m => PrimFloat.mul (float_pow_pos x m) x
  end.

Definition float_powi (x : float) (n : Z) : float :=
  match n with
  | Z0 => 1%float
  | Zpos p => float_pow_pos x (Pos.to_nat p)
  | Zneg p => PrimFloat.div 1%float (float_pow_pos x (Pos.to_nat p))
  end.

#[export] Instance binary64_arith : Arith float := {|
  fadd := PrimFloat.add; fsub := PrimFloat.sub; fmul := PrimFloat.mul;
  fdiv := PrimFloat.div; fneg := PrimFloat.opp;
  fpowi := float_powi; fint := float_of_Z; flit := float_of_Q;
  fis_zero := fun x => PrimFloat.eqb x 0%float
|}.

(** ** Exceptions *)

(** The exception classes that can leave the library. *)
Inductive pyexc : Type :=
| ValueError (msg : string)
| IndexError
| KeyError (key : string)
| OSError.

(** Where an exception was raised: by a [raise] statement of this library
    ([Explicit]), or underneath it, by the interpreter, numpy, pandas or
    PyCO2SYS ([Implicit]). *)
Inductive origin : Type := Explicit | Implicit.

Inductive result (A : Type) : Type :=
| Ok (a : A)
| Error (o : origin) (e : pyexc).
Arguments Ok {A} a.
Arguments Error {A} o e.

(** Sequencing: the first exception ends the computation. *)
#[export] Instance result_bind : MBind result := fun A B k r =>
  match r with
  | Ok a => k a
  | Error o e => Error o e
  end.

(** A call into a library below this one: its exceptions pass through. *)
Definition call {A : Type} (r : pyexc + A) : result A :=
  match r with
  | inl e => Error Implicit e
  | inr a => Ok a
  end.

(** [r] is not an exception raised by the library's own code. *)
Definition no_explicit_raise {A : Type} (r : result A) : Prop :=
  match r with
  | Error Explicit _ => False
  | _ => True
  end.

(** ** numpy and the interpreter *)

(** The message of numpy's ValueError for two one-dimensional operands of
    lengths [n] and [m] that cannot be broadcast against each other; it
    names the two shapes and ends in a space. *)
Definition broadcast_message (n m : nat) : string :=
  "operands could not be broadcast together with shapes (" +:+ pretty n
  +:+ ",) (" +:+ pretty m +:+ ",) ".

Section Arrays.
Context {F : Type} `{Arith F}.

(** [a[i]] for an index [i >= 0]. *)
Definition index (a : list F) (i : nat) : result F :=
  match a !! i with
  | Some x => Ok x
  | None => Error Implicit IndexError
  end.

(** [a[:k]]: a negative [k] counts from the end. *)
Definition slice_to (a : list F) (k : Z) : list F :=
  if (k <? 0)%Z then take (Z.to_nat (Z.of_nat (length a) + k)) a
  else take (Z.to_nat k) a.

(** [a + b] on one-dimensional arrays: element by element when the lengths
    agree, a length-1 operand is broadcast, any other pair of shapes is
    numpy's ValueError. *)
Definition np_add (a b : list F) : result (list F) :=
  if (length a =? length b)%nat then Ok (zip_with fadd a b)
  else match a, b with
       | [x], _ => Ok (fmap (fun y => x +. y) b)
       | _, [y] => Ok (fmap (fun x => x +. y) a)
       | _, _ => Error Implicit (ValueError (broadcast_message (length a) (length b)))
       end.

(** [np.hstack((a, b))]. *)
Definition np_hstack (a b : list F) : list F := a ++ b.

(** [np.tile(a, reps)]: [reps] copies of [a] end to end; a negative count
    is numpy's ValueError. *)
Fixpoint tile (a : list F) (reps : nat) : list F :=
  match reps with
  | O => []
  | S r => a ++ tile a r
  end.

Definition np_tile (a : list F) (reps : Z) : result (list F) :=
  if (reps <? 0)%Z then Error Implicit (ValueError "negative dimensions are not allowed")
  else Ok (tile a (Z.to_nat reps)).

(** [np.arange(n)]. *)
Definition np_arange (n : nat) : list Z := fmap Z.of_nat (seq 0 n).

(** [np.linspace(start, stop, num)] with the default [endpoint=True]:
    [num] evenly spaced samples, computed as numpy does: [i * step + start]
    with [step = (stop - start) / (num - 1)] (or [(i / (num - 1)) * delta]
    when the step underflows to zero), and the last sample overwritten with
    [stop] itself. *)
Definition np_linspace (start stop : F) (num : nat) : list F :=
  let div := (num - 1)%nat in
  let delta := stop -. start in
  let y := fmap fint (np_arange num) in
  let y :=
    if (0 <? div)%nat then
      let step := delta /. fint (Z.of_nat div) in
      if fis_zero step
      then fmap (fun yi => (yi /. fint (Z.of_nat div)) *. delta) y
      else fmap (fun yi => yi *. step) y
    else fmap (fun yi => yi *. delta) y in
  let y := fmap (fun yi => yi +. start) y in
  if (1 <? num)%nat then <[div := stop]> y else y.

End Arrays.

(** ** [constants.py] *)

Section Constants.
Context {F : Type} `{Elementary F}.

(** Total borate in mol/kg-sw following Uppstrom (1974). *)
Definition BORON_COEFFICIENT : F := #0.0004157 /. i#35.

(** Henry's constant for CO2 solubility (Weiss 1974), mol/kg-sw/atm. *)
Definition calculate_k0 (temp_kelvin salinity : F) : F :=
  let temp_k100 := temp_kelvin /. i#100 in
  let ln_k0 :=
    #(-60.2409)
    +. #93.4517 /. temp_k100
    +. #23.3585 *. flog temp_k100
    +. salinity *. (#0.023517 -. #0.023656 *. temp_k100 +. #0.0047036 *. temp_k100 ** 2) in
  fexp ln_k0.

(** The Schmidt number of CO2. *)
Definition schmidt (temp_celsius : F) : F :=
  #2073.1 -. #125.62 *. temp_celsius +. #3.6276 *. temp_celsius ** 2
  -. #0.043219 *. temp_celsius ** 3.

Definition calculate_kappa (wind_speed temp_celsius : F) : F :=
  let sc := schmidt temp_celsius in
  #0.251 *. wind_speed ** 2 *. (sc /. i#660) **. #(-0.5).

Definition piston_velocity (wind_speed temp_celsius salinity : F) : F :=
  #0.24 *. calculate_kappa wind_speed temp_celsius
  *. calculate_k0 (temp_celsius +. #273.15) salinity.

Definition calc_kw (temp_kelvin salinity : F) : F :=
  fexp (#148.9802
        -. #13847.26 /. temp_kelvin
        -. #23.6521 *. flog temp_kelvin
        +. (#(-79.2447) +. #3298.72 /. temp_kelvin +. #12.0408 *. flog temp_kelvin)
           *. fsqrt salinity
        -. #0.019813 *. salinity).

Definition calc_k0 (temp_kelvin salinity : F) : F :=
  let temp_k100 := temp_kelvin /. i#100 in
  let ln_k0 :=
    #(-60.2409)
    +. #93.4517 /. temp_k100
    +. #23.3585 *. flog temp_k100
    +. salinity *. (#0.023517 -. #0.023656 *. temp_k100 +. #0.0047036 *. temp_k100 ** 2) in
  fexp ln_k0.

Definition calc_k1 (temp_kelvin salinity : F) : F :=
  let pk1 :=
    #8510.63 /. temp_kelvin
    -. #172.4493
    +. #26.32996 *. flog temp_kelvin
    -. #0.011555 *. salinity
    +. #0.0001152 *. salinity ** 2 in
  #10.0 **. fneg pk1.

Definition calc_k2 (temp_kelvin salinity : F) : F :=
  let pk2 :=
    #4226.23 /. temp_kelvin
    -. #59.4636
    +. #9.60817 *. flog temp_kelvin
    -. #0.01781 *. salinity
    +. #0.0001122 *. salinity ** 2 in
  #10.0 **. fneg pk2.

Definition calc_kb (temp_kelvin salinity : F) : F :=
  let sqr_sal := fsqrt salinity in
  let ln_kb_top :=
    #(-8966.9)
    -. #2890.53 *. sqr_sal
    -. #77.942 *. salinity
    +. #1.728 *. sqr_sal *. salinity
    -. #0.0996 *. salinity ** 2 in
  let ln_kb :=
    ln_kb_top /. temp_kelvin
    +. #148.0248
    +. #137.1942 *. sqr_sal
    +. #1.62142 *. salinity
    +. (#(-24.4344) -. #25.085 *. sqr_sal -. #0.2474 *. salinity) *. flog temp_kelvin
    +. #0.053105 *. sqr_sal *. temp_kelvin in
  fexp ln_kb.

Definition calc_boron (salinity : F) : F := BORON_COEFFICIENT *. salinity.

End Constants.

(** ** [data_input.py] *)

(** [os.path.join(a, b)] on POSIX paths. *)
Definition os_path_join (a b : string) : string :=
  if String.prefix "/" b then b
  else if (String.length a =? 0)%nat
          || bool_decide (String.get (String.length a - 1) a = Some "/"%char)
       then a +:+ b
       else a +:+ "/" +:+ b.

(** What PyCO2SYS receives: keyword arguments, each a float or an int. *)
Inductive pyval (F : Type) : Type :=
| VFloat (x : F)
| VInt (n : Z).
Arguments VFloat {F} x.
Arguments VInt {F} n.

(** PyCO2SYS's parameter type codes for [par1_type] and [par2_type]. *)
Inductive par_type : Type :=
| TotalAlkalinity | DissolvedInorganicCarbon | PH | PartialPressureCO2 | FugacityCO2.

Definition par_type_code (t : par_type) : Z :=
  match t with
  | TotalAlkalinity => 1
  | DissolvedInorganicCarbon => 2
  | PH => 3
  | PartialPressureCO2 => 4
  | FugacityCO2 => 5
  end.

Section DataInput.
Context {F : Type} `{Elementary F}.

(** *** The world outside the library *)

(** [os.path.dirname(__file__)]: where the module is installed. *)
Variable module_dir : string.

(** [pd.read_hdf(path)]: the table stored at [path], its columns by name,
    or the exception pandas raises. *)
Variable read_hdf : string -> pyexc + gmap string (list F).

(** [pyco2.sys], called with keyword arguments: the carbonate-system
    solver; [B] is the mapping of named outputs it returns. *)
Variable B : Type.
Variable pyco2_sys : gmap string (pyval F) -> pyexc + B.

(** [df[name]]: a missing column is pandas' KeyError. *)
Definition column (df : gmap string (list F)) (name : string) : result (list F) :=
  match df !! name with
  | Some c => Ok c
  | None => Error Implicit (KeyError name)
  end.

(** *** [load_real_data] *)

(** The two local arrays of [loop_years]: the ramp [slope] and the corrected
    year [vec + slope]. *)
Definition loop_year_correction (vec : list F) : result (list F * list F) :=
  v0 ← index vec 0;
  v364 ← index vec 364;
  let slope := np_linspace i#0 (v0 -. v364) 365 in
  vec' ← np_add vec slope;
  Ok (slope, vec').

Definition loop_years (vec : list F) : result (list F) :=
  sv ← loop_year_correction vec;
  let vec := sv.2 in
  Ok (np_hstack vec vec).

Definition DATADIR : string := os_path_join module_dir "indata".
Definition file_path : string := os_path_join DATADIR "mercator_tseries.h5".

Definition load_real_data (prefix : string) (simulation_length_years : Z)
  : result (list F * list F) :=
  df ← call (read_hdf file_path);
  temp_col ← column df (prefix +:+ "temp");
  temp_data ← loop_years (take 365 temp_col);
  salt_col ← column df (prefix +:+ "salt");
  salt_data ← loop_years (take 365 salt_col);
  let total_days := (simulation_length_years * 365)%Z in
  temperature ← np_tile temp_data (total_days `div` 365 + 1);
  let temperature := slice_to temperature total_days in
  salinity ← np_tile salt_data (total_days `div` 365 + 1);
  let salinity := slice_to salinity total_days in
  Ok (temperature, salinity).

(** *** [load_seasonal_forcings] *)

Definition days_in_year : Z := 365.
Definition temp_phase_shift : Z := 180.
Definition sal_phase_shift : Z := 31.

(** [days = np.arange(days_in_year)]; the two profiles are computed
    element by element over it. *)
Definition temperature_one_year : list F :=
  fmap (fun day =>
          i#15 +. #7.5
                  *. fsin (i#2 *. fpi *. fint (day - temp_phase_shift) /. fint days_in_year))
       (np_arange (Z.to_nat days_in_year)).

Definition salinity_one_year : list F :=
  fmap (fun day =>
          #33.5 +. #0.5
                   *. fsin (i#2 *. fpi *. fint (day + sal_phase_shift) /. fint days_in_year))
       (np_arange (Z.to_nat days_in_year)).

(** [total_days] is computed in the source and not used: [np.tile] is given
    the number of years. *)
Definition load_seasonal_forcings (simulation_length_years : Z)
  : result (list F * list F) :=
  temperature ← np_tile temperature_one_year simulation_length_years;
  salinity ← np_tile salinity_one_year simulation_length_years;
  Ok (temperature, salinity).

(** *** [calc_talk] *)

Definition calc_talk (salt : F) (pref : string) : result F :=
  if String.eqb pref "se" then Ok (#48.7 *. salt +. #608.8)
  else if String.eqb pref "me" then Ok (#46.6 *. salt +. #670.6)
  else if String.eqb pref "ne" then Ok (#39.1 *. salt +. #932.7)
  else Error Explicit (ValueError "Invalid region code. Use 'se', 'me', or 'ne'.").

(** *** [compute_initial_conditions] *)

Definition initial_conditions_kwargs (pCO2 alk temp sal : F) : gmap string (pyval F) :=
  <["salinity" := VFloat sal]>
  (<["temperature" := VFloat temp]>
  (<["par2_type" := VInt 4]>
  (<["par1_type" := VInt 1]>
  (<["par2" := VFloat pCO2]>
  (<["par1" := VFloat alk]> ∅))))).

Definition compute_initial_conditions (pCO2 alk temp sal : F) : result B :=
  let kwargs := initial_conditions_kwargs pCO2 alk temp sal in
  call (pyco2_sys kwargs).

End DataInput.

(** ** Vocabulary of the statements *)

(** [needle] occurs in [hay]. *)
Definition occurs_in (needle hay : string) : bool :=
  match String.index 0 needle hay with
  | Some _ => true
  | None => false
  end.

(** The phase of the sine on day [k] of a 365-day cycle. *)
Definition year_angle (k : Z) : R := (2 * PI * IZR k / 365)%R.

(** The slope of the chord of the Schmidt cubic between [x] and [y],
    negated: [schmidt x - schmidt y = (y - x) * schmidt_chord x y]. *)
Definition schmidt_chord (x y : R) : R :=
  (125.62 - 3.6276 * (x + y) + 0.043219 * (x * x + x * y + y * y))%R.

(** The sum of the values of a series. *)
Definition series_sum (l : list R) : R := foldr Rplus 0%R l.

(** A dataset of one constant year for the region prefix [se_]. *)
Definition example_dataset : gmap string (list R) :=
  <["se_salt" := replicate 365 35%R]> (<["se_temp" := replicate 365 15%R]> ∅).

Definition example_read_hdf (path : string) : pyexc + gmap string (list R) :=
  inr example_dataset.

(** * Properties *)

(** ** Arrays *)

Section ArrayFacts.
Context {F : Type} `{Arith F}.
Implicit Types a b : list F.

Lemma length_tile a reps : length (tile a reps) = (reps * length a)%nat.
Proof.
  induction reps as [|r IH]; simpl; [done|].
  rewrite length_app, IH. lia.
Qed.

(** A tiled array repeats with the period of its tile. *)
Lemma tile_lookup a reps k i :
  (k < reps)%nat -> (i < length a)%nat ->
  tile a reps !! (k * length a + i)%nat = a !! i.
Proof.
  revert k. induction reps as [|r IH]; intros k Hk Hi; [lia|].
  simpl. destruct k as [|k].
  - simpl. by rewrite lookup_app_l.
  - rewrite lookup_app_r by (simpl; lia).
    replace (S k * length a + i - length a)%nat with (k * length a + i)%nat by (simpl; lia).
    apply IH; lia.
Qed.

Lemma length_tile_years a (n : Z) :
  length a = 365%nat -> (0 <= n)%Z ->
  Z.of_nat (length (tile a (Z.to_nat n))) = (n * 365)%Z.
Proof. intros Ha Hn. rewrite length_tile, Ha. lia. Qed.

Lemma np_tile_nonneg a reps :
  (0 <= reps)%Z -> np_tile a reps = Ok (tile a (Z.to_nat reps)).
Proof.
  intros Hr. unfold np_tile.
  destruct (Z.ltb_spec reps 0) as [Hlt|_]; [lia|done].
Qed.

Lemma slice_to_nonneg a k : (0 <= k)%Z -> slice_to a k = take (Z.to_nat k) a.
Proof.
  intros Hk. unfold slice_to.
  destruct (Z.ltb_spec k 0) as [Hlt|_]; [lia|done].
Qed.

Lemma np_add_same_length a b :
  length a = length b -> np_add a b = Ok (zip_with fadd a b).
Proof.
  intros Hl. unfold np_add.
  by rewrite (proj2 (Nat.eqb_eq _ _) Hl).
Qed.

Lemma length_np_arange n : length (np_arange n) = n.
Proof. unfold np_arange. by rewrite length_fmap, length_seq. Qed.

Lemma np_arange_lookup n i : (i < n)%nat -> np_arange n !! i = Some (Z.of_nat i).
Proof.
  intros Hi. unfold np_arange.
  rewrite list_lookup_fmap, lookup_seq_lt by done. done.
Qed.

Lemma length_np_linspace start stop num : length (np_linspace start stop num) = num.
Proof.
  unfold np_linspace. cbv zeta.
  destruct (1 <? num)%nat; [rewrite length_insert|];
    rewrite length_fmap; destruct (0 <? num - 1)%nat; try destruct (fis_zero _);
    rewrite !length_fmap; apply length_np_arange.
Qed.

(** The last sample of a linspace is [stop] itself, not a computed value. *)
Lemma np_linspace_last start stop num :
  (1 < num)%nat -> np_linspace start stop num !! (num - 1)%nat = Some stop.
Proof.
  intros Hn. unfold np_linspace.
  rewrite (proj2 (Nat.ltb_lt _ _) Hn). cbv zeta.
  apply list_lookup_insert_eq.
  rewrite length_fmap. destruct (0 <? num - 1)%nat; try destruct (fis_zero _);
    rewrite !length_fmap, length_np_arange; lia.
Qed.

(** The sample at index [i] before the last, in the two ways numpy
    computes it. *)
Lemma np_linspace_lookup start stop num i :
  (i < num - 1)%nat ->
  np_linspace start stop num !! i =
    Some (let div := fint (Z.of_nat (num - 1)) in
          let step := (stop -. start) /. div in
          if fis_zero step
          then fint (Z.of_nat i) /. div *. (stop -. start) +. start
          else fint (Z.of_nat i) *. step +. start).
Proof.
  intros Hi. unfold np_linspace.
  rewrite (proj2 (Nat.ltb_lt 1 num)) by lia.
  rewrite list_lookup_insert_ne by lia.
  rewrite (proj2 (Nat.ltb_lt 0 (num - 1))) by lia.
  cbv zeta. destruct (fis_zero _);
    rewrite !list_lookup_fmap, np_arange_lookup by lia; done.
Qed.

End ArrayFacts.

(** ** The historical loader, in any arithmetic *)

Section LoopYears.
Context {F : Type} `{Arith F}.
Implicit Types vec : list F.

Lemma tile_app_self (c : list F) reps : tile (c ++ c) reps = tile c (2 * reps).
Proof.
  induction reps as [|r IH]; [done|].
  replace (2 * S r)%nat with (S (S (2 * r))) by lia.
  simpl tile. rewrite IH. by rewrite <- app_assoc.
Qed.

Lemma index_lookup vec i x : vec !! i = Some x -> index vec i = Ok x.
Proof. intros Hx. unfold index. by rewrite Hx. Qed.

(** On a 365-point year the correction succeeds: the ramp is the linspace
    from 0 to [vec[0] - vec[364]] and the corrected year is their
    element-wise sum. *)
Lemma loop_year_correction_365 vec v0 v364 :
  length vec = 365%nat -> vec !! 0%nat = Some v0 -> vec !! 364%nat = Some v364 ->
  loop_year_correction vec =
    Ok (np_linspace i#0 (v0 -. v364) 365,
        zip_with fadd vec (np_linspace i#0 (v0 -. v364) 365)).
Proof.
  intros Hl H0 H364. unfold loop_year_correction.
  rewrite (index_lookup _ _ _ H0), (index_lookup _ _ _ H364). simpl.
  rewrite np_add_same_length by (by rewrite length_np_linspace).
  done.
Qed.

Lemma loop_years_365 vec v0 v364 :
  length vec = 365%nat -> vec !! 0%nat = Some v0 -> vec !! 364%nat = Some v364 ->
  loop_years vec =
    Ok (zip_with fadd vec (np_linspace i#0 (v0 -. v364) 365)
        ++ zip_with fadd vec (np_linspace i#0 (v0 -. v364) 365)).
Proof.
  intros Hl H0 H364. unfold loop_years.
  by rewrite (loop_year_correction_365 _ _ _ Hl H0 H364).
Qed.

Lemma length_corrected vec (slope : list F) :
  length vec = 365%nat -> length slope = 365%nat ->
  length (zip_with fadd vec slope) = 365%nat.
Proof. intros Hv Hs. rewrite length_zip_with. lia. Qed.

(** The last day of the corrected year: the ramp ends on [vec[0] - vec[364]]
    exactly. *)
Lemma corrected_last vec v0 v364 :
  vec !! 364%nat = Some v364 ->
  zip_with fadd vec (np_linspace i#0 (v0 -. v364) 365) !! 364%nat
  = Some (v364 +. (v0 -. v364)).
Proof.
  intros H364. rewrite lookup_zip_with, H364.
  change 364%nat with (365 - 1)%nat at 1.
  by rewrite np_linspace_last by lia.
Qed.

(** A year of 365 points has a day 0 and a day 364. *)
Lemma year_endpoints vec :
  length vec = 365%nat -> exists v0 v364, vec !! 0%nat = Some v0 /\ vec !! 364%nat = Some v364.
Proof.
  intros Hl.
  destruct (lookup_lt_is_Some_2 vec 0) as [v0 H0]; [lia|].
  destruct (lookup_lt_is_Some_2 vec 364) as [v364 H364]; [lia|].
  eauto.
Qed.

End LoopYears.

Section LoadRealData.
Context {F : Type} `{Arith F}.
Variable module_dir : string.
Variable read_hdf : string -> pyexc + gmap string (list F).

(** With the dataset in place (the file opens, both columns exist and hold
    at least a year), the loader returns: each series is the corrected year
    [c], tiled, cut to [365 * n] days. *)
Lemma load_real_data_ok (prefix : string) (n : Z) df temp_col salt_col :
  (0 <= n)%Z ->
  read_hdf (file_path module_dir) = inr df ->
  df !! (prefix +:+ "temp") = Some temp_col ->
  df !! (prefix +:+ "salt") = Some salt_col ->
  (365 <= length temp_col)%nat -> (365 <= length salt_col)%nat ->
  exists ct cs : list F,
    loop_years (take 365 temp_col) = Ok (ct ++ ct) /\
    loop_years (take 365 salt_col) = Ok (cs ++ cs) /\
    length ct = 365%nat /\ length cs = 365%nat /\
    load_real_data module_dir read_hdf prefix n =
      Ok (take (Z.to_nat (n * 365)) (tile ct (2 * Z.to_nat (n + 1))),
          take (Z.to_nat (n * 365)) (tile cs (2 * Z.to_nat (n + 1)))).
Proof.
  intros Hn Hdf Ht Hs Hlt Hls.
  assert (Hlt' : length (take 365 temp_col) = 365%nat) by (rewrite length_take; lia).
  assert (Hls' : length (take 365 salt_col) = 365%nat) by (rewrite length_take; lia).
  destruct (year_endpoints _ Hlt') as (t0 & t364 & Ht0 & Ht364).
  destruct (year_endpoints _ Hls') as (s0 & s364 & Hs0 & Hs364).
  eexists _, _.
  split; [exact (loop_years_365 _ _ _ Hlt' Ht0 Ht364)|].
  split; [exact (loop_years_365 _ _ _ Hls' Hs0 Hs364)|].
  split; [apply length_corrected; [done|apply length_np_linspace]|].
  split; [apply length_corrected; [done|apply length_np_linspace]|].
  unfold load_real_data. rewrite Hdf. simpl.
  unfold column. rewrite Ht, Hs. simpl.
  rewrite (loop_years_365 _ _ _ Hlt' Ht0 Ht364). simpl.
  rewrite (loop_years_365 _ _ _ Hls' Hs0 Hs364). simpl.
  rewrite Z.div_mul by lia.
  rewrite !np_tile_nonneg by lia. simpl.
  rewrite !slice_to_nonneg by lia.
  by rewrite !tile_app_self.
Qed.

End LoadRealData.

(** ** The idealized seasonal generator, in any arithmetic *)

Section Seasonal.
Context {F : Type} `{Elementary F}.

Lemma length_temperature_one_year : length (temperature_one_year (F:=F)) = 365%nat.
Proof. unfold temperature_one_year. by rewrite length_fmap, length_np_arange. Qed.

Lemma length_salinity_one_year : length (salinity_one_year (F:=F)) = 365%nat.
Proof. unfold salinity_one_year. by rewrite length_fmap, length_np_arange. Qed.

Lemma load_seasonal_forcings_ok (n : Z) :
  (0 <= n)%Z ->
  load_seasonal_forcings (F:=F) n =
    Ok (tile temperature_one_year (Z.to_nat n), tile salinity_one_year (Z.to_nat n)).
Proof.
  intros Hn. unfold load_seasonal_forcings.
  by rewrite !np_tile_nonneg by done.
Qed.

(** Day [d] of year [k] of either tiled series is day [d] of the one-year
    curve. *)
Lemma seasonal_day (one_year : list F) (n : Z) (k d : nat) :
  length one_year = 365%nat -> (Z.of_nat k < n)%Z -> (d < 365)%nat ->
  tile one_year (Z.to_nat n) !! (365 * k + d)%nat = one_year !! d.
Proof.
  intros Hl Hk Hd.
  assert (Hi : (365 * k + d = k * length one_year + d)%nat) by lia.
  rewrite Hi. apply tile_lookup; lia.
Qed.

End Seasonal.

(** ** C1: the length of the forcing series *)

(** C1.  For every positive number of years [n], both forcing generators
    return a temperature series and a salinity series of exactly [n * 365]
    days: the seasonal generator always, the historical loader whenever its
    dataset is in place (the file opens and holds the two columns of the
    region, each of at least 365 rows).  Holds in any arithmetic. *)
Theorem forcing_series_lengths {F : Type} `{Elementary F}
    (module_dir : string) (read_hdf : string -> pyexc + gmap string (list F))
    (prefix : string) (simulation_length_years : Z)
    (df : gmap string (list F)) (temp_col salt_col : list F) :
  (0 < simulation_length_years)%Z ->
  read_hdf (file_path module_dir) = inr df ->
  df !! (prefix +:+ "temp") = Some temp_col ->
  df !! (prefix +:+ "salt") = Some salt_col ->
  (365 <= length temp_col)%nat -> (365 <= length salt_col)%nat ->
  (exists temperature salinity : list F,
     load_seasonal_forcings simulation_length_years = Ok (temperature, salinity) /\
     Z.of_nat (length temperature) = (simulation_length_years * 365)%Z /\
     Z.of_nat (length salinity) = (simulation_length_years * 365)%Z) /\
  (exists temperature salinity : list F,
     load_real_data module_dir read_hdf prefix simulation_length_years
       = Ok (temperature, salinity) /\
     Z.of_nat (length temperature) = (simulation_length_years * 365)%Z /\
     Z.of_nat (length salinity) = (simulation_length_years * 365)%Z).
Proof.
  intros Hn Hdf Ht Hs Hlt Hls. split.
  - eexists _, _. split; [apply load_seasonal_forcings_ok; lia|].
    split; apply length_tile_years;
      auto using length_temperature_one_year, length_salinity_one_year with lia.
  - destruct (load_real_data_ok module_dir read_hdf prefix simulation_length_years
                df temp_col salt_col) as (ct & cs & _ & _ & Hct & Hcs & Hload);
      [lia|done..|].
    eexists _, _. split; [exact Hload|].
    rewrite !length_take, !length_tile, Hct, Hcs. lia.
Qed.

Lemma forcing_series_lengths_witness :
  (exists temperature salinity : list R,
     load_seasonal_forcings 2 = Ok (temperature, salinity) /\
     Z.of_nat (length temperature) = (2 * 365)%Z /\
     Z.of_nat (length salinity) = (2 * 365)%Z) /\
  (exists temperature salinity : list R,
     load_real_data "/opt/model/utils" example_read_hdf "se_" 2
       = Ok (temperature, salinity) /\
     Z.of_nat (length temperature) = (2 * 365)%Z /\
     Z.of_nat (length salinity) = (2 * 365)%Z).
Proof.
  apply (forcing_series_lengths "/opt/model/utils" example_read_hdf "se_" 2
           example_dataset (replicate 365 15%R) (replicate 365 35%R)).
  - lia.
  - reflexivity.
  - vm_compute. reflexivity.
  - vm_compute. reflexivity.
  - rewrite length_replicate. lia.
  - rewrite length_replicate. lia.
Defined.

(** ** The loop-year correction in exact arithmetic *)

Section ExactLoop.
Local Open Scope R_scope.
Implicit Types vec : list R.

(** The ramp starts at 0. *)
Lemma slope_first (stop : R) : np_linspace (F:=R) i#0 stop 365 !! 0%nat = Some 0.
Proof.
  rewrite np_linspace_lookup by lia. cbv zeta.
  destruct (fis_zero _); f_equal; simpl; change (Z.of_nat 0) with 0%Z; lra.
Qed.

Lemma corrected_first_exact vec v0 v364 :
  vec !! 0%nat = Some v0 ->
  zip_with fadd vec (np_linspace (F:=R) i#0 (v0 -. v364) 365) !! 0%nat = Some v0.
Proof.
  intros H0. rewrite lookup_zip_with, H0, slope_first. simpl.
  f_equal. lra.
Qed.

Lemma corrected_last_exact vec v0 v364 :
  vec !! 364%nat = Some v364 ->
  zip_with fadd vec (np_linspace (F:=R) i#0 (v0 -. v364) 365) !! 364%nat = Some v0.
Proof.
  intros H364. rewrite (corrected_last vec v0 v364 H364). simpl.
  f_equal. lra.
Qed.

(** What [loop_years] does to a 365-point year, in exact arithmetic: the
    corrected year [c] starts and ends on [vec[0]]. *)
Lemma loop_years_exact vec :
  length vec = 365%nat ->
  exists (c : list R) (v0 : R),
    loop_years vec = Ok (c ++ c) /\ length c = 365%nat /\
    vec !! 0%nat = Some v0 /\ c !! 0%nat = Some v0 /\ c !! 364%nat = Some v0.
Proof.
  intros Hl. destruct (year_endpoints vec Hl) as (v0 & v364 & H0 & H364).
  eexists _, v0. split; [exact (loop_years_365 vec v0 v364 Hl H0 H364)|].
  split; [apply length_corrected; [done|apply length_np_linspace]|].
  split; [done|].
  split; [by apply corrected_first_exact|by apply corrected_last_exact].
Qed.

End ExactLoop.

(** ** C5: the loop-year correction *)

(** C5, as the code has it.  For every 365-point year [vec], in exact
    arithmetic: the ramp [slope] ends on [vec[0] - vec[364]]; the corrected
    year starts on [corrected[0] = vec[0] = vec[364] + slope[364]], which is
    also its last value [corrected[364]]; so where two corrected years are
    concatenated the series does not step at all
    ([out[365] = out[364]]).  The claim's [corrected[364] + slope[364]]
    adds the ramp a second time. *)
Theorem loop_correction_closes_year (vec : list R) :
  length vec = 365%nat ->
  exists (slope corrected : list R) (v0 v364 : R),
    vec !! 0%nat = Some v0 /\ vec !! 364%nat = Some v364 /\
    loop_year_correction vec = Ok (slope, corrected) /\
    loop_years vec = Ok (corrected ++ corrected) /\
    slope !! 364%nat = Some (v0 - v364)%R /\
    corrected !! 0%nat = Some (v364 + (v0 - v364))%R /\
    corrected !! 364%nat = corrected !! 0%nat /\
    (corrected ++ corrected) !! 365%nat = (corrected ++ corrected) !! 364%nat.
Proof.
  intros Hl. destruct (year_endpoints vec Hl) as (v0 & v364 & H0 & H364).
  pose proof (corrected_first_exact vec v0 v364 H0) as Hc0.
  pose proof (corrected_last_exact vec v0 v364 H364) as Hc364.
  eexists _, _, v0, v364.
  split; [done|]. split; [done|].
  split; [exact (loop_year_correction_365 vec v0 v364 Hl H0 H364)|].
  split; [exact (loop_years_365 vec v0 v364 Hl H0 H364)|].
  split; [exact (np_linspace_last (F:=R) i#0 (v0 -. v364) 365 ltac:(lia))|].
  split; [rewrite Hc0; f_equal; lra|].
  split; [by rewrite Hc0, Hc364|].
  rewrite lookup_app_r, lookup_app_l
    by (rewrite length_corrected; [lia|done|apply length_np_linspace]).
  rewrite length_corrected by (done || apply length_np_linspace).
  change (365 - 365)%nat with 0%nat. by rewrite Hc0, Hc364.
Qed.

Lemma loop_correction_closes_year_witness :
  exists (slope corrected : list R) (v0 v364 : R),
    (1%R :: replicate 364 0%R) !! 0%nat = Some v0 /\
    (1%R :: replicate 364 0%R) !! 364%nat = Some v364 /\
    loop_year_correction (1%R :: replicate 364 0%R) = Ok (slope, corrected) /\
    loop_years (1%R :: replicate 364 0%R) = Ok (corrected ++ corrected) /\
    slope !! 364%nat = Some (v0 - v364)%R /\
    corrected !! 0%nat = Some (v364 + (v0 - v364))%R /\
    corrected !! 364%nat = corrected !! 0%nat /\
    (corrected ++ corrected) !! 365%nat = (corrected ++ corrected) !! 364%nat.
Proof.
  apply (loop_correction_closes_year (1%R :: replicate 364 0%R)).
  reflexivity.
Defined.

(** C5 as stated fails on the year [1, 0, ..., 0], in exact arithmetic and
    in binary64 alike: [corrected[0] = 1], while
    [corrected[364] + slope[364] = 1 + 1]. *)
Lemma loop_correction_counterexample :
  (exists slope corrected : list R,
     loop_year_correction (1%R :: replicate 364 0%R) = Ok (slope, corrected) /\
     corrected !! 0%nat = Some 1%R /\ corrected !! 364%nat = Some 1%R /\
     slope !! 364%nat = Some 1%R /\ 1%R <> (1 + 1)%R) /\
  (exists slope corrected : list float,
     loop_year_correction (1%float :: replicate 364 0%float) = Ok (slope, corrected) /\
     corrected !! 0%nat = Some 1%float /\ corrected !! 364%nat = Some 1%float /\
     slope !! 364%nat = Some 1%float /\ PrimFloat.eqb 1 (1 + 1) = false).
Proof.
  split.
  - eexists _, _.
    split; [exact (loop_year_correction_365 (1%R :: replicate 364 0%R) 1%R 0%R
                     eq_refl eq_refl eq_refl)|].
    split; [by apply corrected_first_exact|].
    split; [by apply corrected_last_exact|].
    split; [|lra].
    change 364%nat with (365 - 1)%nat. rewrite np_linspace_last by lia.
    simpl. f_equal. lra.
  - eexists _, _. split; [vm_compute; reflexivity|].
    repeat split; vm_compute; reflexivity.
Qed.

(** ** C9: the corrected year is closed and repeats *)

Section ClosedYear.
Context {F : Type} `{Arith F}.

(** The two halves of a doubled year agree. *)
Lemma doubled_year_halves (c : list F) (i : nat) :
  length c = 365%nat -> (i < 365)%nat -> (c ++ c) !! (365 + i)%nat = (c ++ c) !! i.
Proof.
  intros Hc Hi. rewrite lookup_app_r, lookup_app_l by lia.
  f_equal. lia.
Qed.

(** Day [d] of year [k] of a tiled and cut series. *)
Lemma tiled_day (c : list F) (n : Z) (k d : nat) :
  length c = 365%nat -> (Z.of_nat k < n)%Z -> (d < 365)%nat ->
  take (Z.to_nat (n * 365)) (tile c (2 * Z.to_nat (n + 1))) !! (365 * k + d)%nat = c !! d.
Proof.
  intros Hc Hk Hd. rewrite lookup_take_lt by lia.
  assert (Hi : (365 * k + d = k * length c + d)%nat) by lia.
  rewrite Hi. apply tile_lookup; lia.
Qed.

End ClosedYear.

(** C9, as the code has it.  For every 365-point year [vec]:
    - in any arithmetic, [loop_years vec] returns 730 values, the second
      half identical to the first, and its value at index 364 is
      [vec[364] + (vec[0] - vec[364])] as the arithmetic computes it;
    - in exact arithmetic that value is [vec[0]], the value at index 0;
    - so, in exact arithmetic, in every year of the series [load_real_data]
      returns (dataset in place, a positive number of years), day 364
      equals day 0. *)
Theorem loop_years_closes_year :
  (forall (F : Type) (A : Arith F) (vec : list F),
     length vec = 365%nat ->
     exists (out : list F) (v0 v364 : F),
       vec !! 0%nat = Some v0 /\ vec !! 364%nat = Some v364 /\
       loop_years vec = Ok out /\ length out = 730%nat /\
       (forall i : nat, (i < 365)%nat -> out !! (365 + i)%nat = out !! i) /\
       out !! 364%nat = Some (v364 +. (v0 -. v364))) /\
  (forall vec : list R,
     length vec = 365%nat ->
     exists (out : list R) (v0 : R),
       loop_years vec = Ok out /\ vec !! 0%nat = Some v0 /\
       out !! 0%nat = Some v0 /\ out !! 364%nat = Some v0) /\
  (forall (module_dir : string) (read_hdf : string -> pyexc + gmap string (list R))
          (prefix : string) (simulation_length_years : Z)
          (df : gmap string (list R)) (temp_col salt_col : list R),
     (0 < simulation_length_years)%Z ->
     read_hdf (file_path module_dir) = inr df ->
     df !! (prefix +:+ "temp") = Some temp_col ->
     df !! (prefix +:+ "salt") = Some salt_col ->
     (365 <= length temp_col)%nat -> (365 <= length salt_col)%nat ->
     exists temperature salinity : list R,
       load_real_data module_dir read_hdf prefix simulation_length_years
         = Ok (temperature, salinity) /\
       forall year : nat, (Z.of_nat year < simulation_length_years)%Z ->
         (exists t0 : R, temperature !! (365 * year)%nat = Some t0 /\
                         temperature !! (365 * year + 364)%nat = Some t0) /\
         (exists s0 : R, salinity !! (365 * year)%nat = Some s0 /\
                         salinity !! (365 * year + 364)%nat = Some s0)).
Proof.
  split; [|split].
  - intros F A vec Hl.
    destruct (year_endpoints vec Hl) as (v0 & v364 & H0 & H364).
    pose proof (length_corrected vec _ Hl (length_np_linspace i#0 (v0 -. v364) 365)) as Hc.
    eexists _, v0, v364. split; [done|]. split; [done|].
    split; [exact (loop_years_365 vec v0 v364 Hl H0 H364)|].
    split; [rewrite length_app, Hc; lia|].
    split; [intros i Hi; by apply doubled_year_halves|].
    rewrite lookup_app_l by lia. by apply corrected_last.
  - intros vec Hl.
    destruct (loop_years_exact vec Hl) as (c & v0 & Hout & Hc & H0 & Hc0 & Hc364).
    exists (c ++ c), v0. split; [done|]. split; [done|].
    rewrite !lookup_app_l by lia. done.
  - intros module_dir read_hdf prefix n df temp_col salt_col Hn Hdf Ht Hs Hlt Hls.
    destruct (load_real_data_ok module_dir read_hdf prefix n df temp_col salt_col)
      as (ct & cs & Hlt' & Hls' & Hct & Hcs & Hload); [lia|done..|].
    destruct (loop_years_exact (take 365 temp_col)) as (ct' & t0 & Et & Hct' & _ & Ht0 & Ht364);
      [rewrite length_take; lia|].
    destruct (loop_years_exact (take 365 salt_col)) as (cs' & s0 & Es & Hcs' & _ & Hs0 & Hs364);
      [rewrite length_take; lia|].
    assert (ct' = ct) as ->.
    { rewrite Et in Hlt'. injection Hlt' as Happ. apply app_inj_1 in Happ; [tauto|lia]. }
    assert (cs' = cs) as ->.
    { rewrite Es in Hls'. injection Hls' as Happ. apply app_inj_1 in Happ; [tauto|lia]. }
    eexists _, _. split; [exact Hload|].
    intros year Hy. split.
    + exists t0. replace (365 * year)%nat with (365 * year + 0)%nat at 1 by lia.
      by rewrite !tiled_day by (done || lia).
    + exists s0. replace (365 * year)%nat with (365 * year + 0)%nat at 1 by lia.
      by rewrite !tiled_day by (done || lia).
Qed.

Lemma loop_years_closes_year_witness :
  exists (out : list R) (v0 : R),
    loop_years (replicate 365 15%R) = Ok out /\ replicate 365 15%R !! 0%nat = Some v0 /\
    out !! 0%nat = Some v0 /\ out !! 364%nat = Some v0.
Proof.
  apply (proj1 (proj2 loop_years_closes_year) (replicate 365 15%R)).
  reflexivity.
Defined.

(** C9 as stated fails in binary64, the arithmetic the code runs: on a year
    that starts at 0.1 and ends at 1.0, [0.1 - 1.0] rounds to
    [-0.9], and [1.0 + -0.9] rounds to 0.09999999999999998, so the value at
    index 364 differs from the value 0.1 at index 0. *)
Lemma loop_years_binary64_counterexample :
  length (0.1%float :: replicate 363 0%float ++ [1%float]) = 365%nat /\
  exists out : list float,
    loop_years (0.1%float :: replicate 363 0%float ++ [1%float]) = Ok out /\
    out !! 0%nat = Some 0.1%float /\
    out !! 364%nat = Some 0.09999999999999998%float /\
    PrimFloat.eqb 0.09999999999999998 0.1 = false.
Proof.
  split; [reflexivity|].
  eexists. split; [vm_compute; reflexivity|].
  repeat split; vm_compute; reflexivity.
Qed.

(** ** C6: where the seasonal curves peak, in exact arithmetic *)

Section SeasonalExtrema.
Local Open Scope R_scope.

Lemma year_angle_shift k : year_angle k = year_angle (k - 365) + 2 * INR 1 * PI.
Proof. unfold year_angle. rewrite minus_IZR. simpl. field. Qed.

Lemma year_angle_mirror k : year_angle (365 - k) = 2 * PI - year_angle k.
Proof. unfold year_angle. rewrite minus_IZR. field. Qed.

Lemma sin_year_angle_91_pos : 0 < sin (year_angle 91).
Proof.
  pose proof PI_RGT_0. apply sin_gt_0; unfold year_angle; lra.
Qed.

(** Over one cycle centred on day 0 the sine is largest on day 91, the
    integer day nearest to a quarter of the cycle (91.25). *)
Lemma sin_year_angle_peak_centred (k : Z) :
  (-180 <= k <= 184)%Z -> k <> 91%Z -> sin (year_angle k) < sin (year_angle 91).
Proof.
  intros [Hlo Hhi] Hk. pose proof PI_RGT_0 as Hpi.
  apply IZR_le in Hlo, Hhi.
  destruct (Z_le_gt_dec k (-92)) as [Hneg|Hmid].
  - apply Rlt_trans with 0; [|apply sin_year_angle_91_pos].
    apply IZR_le in Hneg.
    apply sin_lt_0_var; unfold year_angle; nra.
  - destruct (Z_le_gt_dec k 90) as [Hrise|Hfall].
    + assert (IZR (-91) <= IZR k) by (apply IZR_le; lia).
      apply IZR_le in Hrise.
      apply sin_increasing_1; unfold year_angle; nra.
    + assert (IZR 92 <= IZR k) by (apply IZR_le; lia).
      rewrite <- (sin_PI_x (year_angle k)).
      apply sin_increasing_1; unfold year_angle; nra.
Qed.

Lemma sin_year_angle_peak (k : Z) :
  (-180 <= k <= 334)%Z -> k <> 91%Z -> sin (year_angle k) < sin (year_angle 91).
Proof.
  intros Hr Hk. destruct (Z_le_gt_dec k 184) as [Hc|Hc].
  - apply sin_year_angle_peak_centred; lia.
  - rewrite year_angle_shift, sin_period.
    apply sin_year_angle_peak_centred; lia.
Qed.

Lemma sin_year_angle_mirror k : sin (year_angle (365 - k)) = - sin (year_angle k).
Proof.
  rewrite year_angle_mirror, sin_minus, sin_2PI, cos_2PI. ring.
Qed.

(** ... and smallest on day 274, nearest to three quarters (273.75). *)
Lemma sin_year_angle_trough (m : Z) :
  (31 <= m <= 395)%Z -> m <> 274%Z -> sin (year_angle 274) < sin (year_angle m).
Proof.
  intros Hr Hm.
  assert (E274 : sin (year_angle 274) = - sin (year_angle 91))
    by (change 274%Z with (365 - 91)%Z; apply sin_year_angle_mirror).
  assert (Em : sin (year_angle m) = - sin (year_angle (365 - m)))
    by (rewrite sin_year_angle_mirror; ring).
  rewrite E274, Em.
  apply Ropp_lt_contravar, sin_year_angle_peak; lia.
Qed.

Lemma sin_year_angle_0 : sin (year_angle 0) = 0.
Proof.
  replace (year_angle 0) with 0 by (unfold year_angle; field). apply sin_0.
Qed.

Lemma sin_year_angle_365 : sin (year_angle 365) = 0.
Proof.
  replace (year_angle 365) with (2 * PI) by (unfold year_angle; field). apply sin_2PI.
Qed.

(** The two one-year curves, day by day. *)
Lemma temperature_day (d : nat) :
  (d < 365)%nat ->
  temperature_one_year (F:=R) !! d = Some (15 + 7.5 * sin (year_angle (Z.of_nat d - 180))).
Proof.
  intros Hd. unfold temperature_one_year.
  rewrite list_lookup_fmap, np_arange_lookup by (unfold days_in_year; lia).
  simpl. unfold year_angle, days_in_year, temp_phase_shift, Q2R. simpl.
  reflexivity.
Qed.

Lemma salinity_day (d : nat) :
  (d < 365)%nat ->
  salinity_one_year (F:=R) !! d = Some (33.5 + 0.5 * sin (year_angle (Z.of_nat d + 31))).
Proof.
  intros Hd. unfold salinity_one_year.
  rewrite list_lookup_fmap, np_arange_lookup by (unfold days_in_year; lia).
  simpl. unfold year_angle, days_in_year, sal_phase_shift, Q2R. simpl.
  reflexivity.
Qed.

End SeasonalExtrema.

Section SeasonalSeries.
Local Open Scope R_scope.

(** The two series of a two-year run, and their values day by day. *)
Lemma two_year_series :
  load_seasonal_forcings (F:=R) 2 =
    Ok (tile temperature_one_year 2, tile salinity_one_year 2) /\
  length (tile (temperature_one_year (F:=R)) 2) = 730%nat /\
  length (tile (salinity_one_year (F:=R)) 2) = 730%nat /\
  forall year d : nat, (year < 2)%nat -> (d < 365)%nat ->
    tile (temperature_one_year (F:=R)) 2 !! (365 * year + d)%nat
      = Some (15 + 7.5 * sin (year_angle (Z.of_nat d - 180))) /\
    tile (salinity_one_year (F:=R)) 2 !! (365 * year + d)%nat
      = Some (33.5 + 0.5 * sin (year_angle (Z.of_nat d + 31))).
Proof.
  pose proof (length_temperature_one_year (F:=R)) as Ht.
  pose proof (length_salinity_one_year (F:=R)) as Hs.
  split; [exact (load_seasonal_forcings_ok (F:=R) 2 ltac:(lia))|].
  split; [rewrite length_tile, Ht; reflexivity|].
  split; [rewrite length_tile, Hs; reflexivity|].
  intros year d Hy Hd. split.
  - rewrite <- (temperature_day d Hd).
    exact (seasonal_day (F:=R) temperature_one_year 2 year d Ht ltac:(lia) Hd).
  - rewrite <- (salinity_day d Hd).
    exact (seasonal_day (F:=R) salinity_one_year 2 year d Hs ltac:(lia) Hd).
Qed.

Lemma temperature_below_peak (d : nat) :
  (d < 365)%nat -> d <> 271%nat ->
  15 + 7.5 * sin (year_angle (Z.of_nat d - 180))
  < 15 + 7.5 * sin (year_angle (Z.of_nat 271 - 180)).
Proof.
  intros Hd Hne.
  assert (Hs : sin (year_angle (Z.of_nat d - 180)) < sin (year_angle 91))
    by (apply sin_year_angle_peak; lia).
  change (Z.of_nat 271 - 180)%Z with 91%Z. lra.
Qed.

Lemma salinity_above_trough (d : nat) :
  (d < 365)%nat -> d <> 243%nat ->
  33.5 + 0.5 * sin (year_angle (Z.of_nat 243 + 31))
  < 33.5 + 0.5 * sin (year_angle (Z.of_nat d + 31)).
Proof.
  intros Hd Hne.
  assert (Hs : sin (year_angle 274) < sin (year_angle (Z.of_nat d + 31)))
    by (apply sin_year_angle_trough; lia).
  change (Z.of_nat 243 + 31)%Z with 274%Z. lra.
Qed.

End SeasonalSeries.

(** C6, as the code has it.  For a run of 2 years, in exact arithmetic,
    the seasonal generator returns two series of 730 days; in each 365-day
    year the temperature is largest on day index 271, strictly above every
    other day, and the salinity is smallest on day index 243, strictly
    below every other day.  (The phase shifts 180 and 31 place the rising
    mean crossing of the sine, not its extremum: the extrema fall a quarter
    cycle, about 91 days, after day 180, and three quarters of a cycle
    after day 365 - 31.) *)
Theorem seasonal_extrema :
  exists temperature salinity : list R,
    load_seasonal_forcings 2 = Ok (temperature, salinity) /\
    length temperature = 730%nat /\ length salinity = 730%nat /\
    forall year d : nat, (year < 2)%nat -> (d < 365)%nat ->
      exists t_d t_max s_d s_min : R,
        temperature !! (365 * year + d)%nat = Some t_d /\
        temperature !! (365 * year + 271)%nat = Some t_max /\
        (d <> 271%nat -> (t_d < t_max)%R) /\
        salinity !! (365 * year + d)%nat = Some s_d /\
        salinity !! (365 * year + 243)%nat = Some s_min /\
        (d <> 243%nat -> (s_min < s_d)%R).
Proof.
  destruct two_year_series as (Hload & Hlt & Hls & Hday).
  eexists _, _. split; [exact Hload|]. split; [exact Hlt|]. split; [exact Hls|].
  intros year d Hy Hd.
  destruct (Hday year d Hy Hd) as [Htd Hsd].
  destruct (Hday year 271%nat Hy ltac:(lia)) as [Htmax _].
  destruct (Hday year 243%nat Hy ltac:(lia)) as [_ Hsmin].
  eexists _, _, _, _.
  split; [exact Htd|]. split; [exact Htmax|].
  split; [intros Hne; by apply temperature_below_peak|].
  split; [exact Hsd|]. split; [exact Hsmin|].
  intros Hne; by apply salinity_above_trough.
Qed.

(** C6 as stated fails: on each of the day indices 179, 180 and 181 the
    temperature is strictly below its value on day 271 (on day 180 it is the
    mean, 15), and on every day index from 304 to 364 the salinity is
    strictly above its value on day 243 (on day 334 it is the mean, 33.5). *)
Lemma seasonal_extrema_counterexample :
  exists temperature salinity : list R,
    load_seasonal_forcings 2 = Ok (temperature, salinity) /\
    (forall d : nat, (179 <= d <= 181)%nat ->
       exists t_d t_271 : R,
         temperature !! d = Some t_d /\ temperature !! 271%nat = Some t_271 /\
         (t_d < t_271)%R) /\
    temperature !! 180%nat = Some 15%R /\
    (forall d : nat, (304 <= d <= 364)%nat ->
       exists s_d s_243 : R,
         salinity !! d = Some s_d /\ salinity !! 243%nat = Some s_243 /\
         (s_243 < s_d)%R) /\
    salinity !! 334%nat = Some 33.5%R.
Proof.
  destruct two_year_series as (Hload & _ & _ & Hday).
  assert (Hday0 : forall d : nat, (d < 365)%nat ->
    tile (temperature_one_year (F:=R)) 2 !! d
      = Some (15 + 7.5 * sin (year_angle (Z.of_nat d - 180)))%R /\
    tile (salinity_one_year (F:=R)) 2 !! d
      = Some (33.5 + 0.5 * sin (year_angle (Z.of_nat d + 31)))%R).
  { intros d Hd. exact (Hday 0%nat d ltac:(lia) Hd). }
  eexists _, _. split; [exact Hload|].
  split; [|split; [|split]].
  - intros d Hd. eexists _, _.
    split; [exact (proj1 (Hday0 d ltac:(lia)))|].
    split; [exact (proj1 (Hday0 271%nat ltac:(lia)))|].
    apply temperature_below_peak; lia.
  - rewrite (proj1 (Hday0 180%nat ltac:(lia))).
    change (Z.of_nat 180 - 180)%Z with 0%Z. rewrite sin_year_angle_0.
    f_equal. lra.
  - intros d Hd. eexists _, _.
    split; [exact (proj2 (Hday0 d ltac:(lia)))|].
    split; [exact (proj2 (Hday0 243%nat ltac:(lia)))|].
    apply salinity_above_trough; lia.
  - rewrite (proj2 (Hday0 334%nat ltac:(lia))).
    change (Z.of_nat 334 + 31)%Z with 365%Z. rewrite sin_year_angle_365.
    f_equal. lra.
Qed.

Lemma seasonal_extrema_witness :
  exists temperature salinity : list R,
    load_seasonal_forcings 2 = Ok (temperature, salinity) /\
    exists t_d t_max s_d s_min : R,
      temperature !! (365 * 1 + 180)%nat = Some t_d /\
      temperature !! (365 * 1 + 271)%nat = Some t_max /\
      (180%nat <> 271%nat -> (t_d < t_max)%R) /\
      salinity !! (365 * 1 + 180)%nat = Some s_d /\
      salinity !! (365 * 1 + 243)%nat = Some s_min /\
      (180%nat <> 243%nat -> (s_min < s_d)%R).
Proof.
  destruct seasonal_extrema as (t & s & Hload & _ & _ & Hday).
  exists t, s. split; [exact Hload|].
  apply (Hday 1%nat 180%nat); lia.
Defined.

(** ** C7: the Schmidt number at 20 degrees Celsius *)

Lemma schmidt_20_value : schmidt (F:=R) 20%R = 665.988%R.
Proof. unfold schmidt. simpl. unfold Q2R. simpl. lra. Qed.

(** C7, as the code has it.  With the coefficients 2073.1, -125.62, 3.6276
    and -0.043219, [schmidt(20)] is 665.988 in exact arithmetic, that is
    665.99 to two decimal places; the binary64 value the code computes lies
    strictly between 665.985 and 665.995 and rounds to 665.99 as well. *)
Theorem schmidt_20 :
  schmidt (F:=R) 20%R = 665.988%R /\
  (Rabs (schmidt (F:=R) 20 - 665.99) <= 0.005)%R /\
  PrimFloat.ltb 665.985 (schmidt (F:=float) 20%float) = true /\
  PrimFloat.ltb (schmidt (F:=float) 20%float) 665.995 = true.
Proof.
  pose proof schmidt_20_value as E.
  split; [exact E|]. split.
  - rewrite E. apply Rabs_le. lra.
  - split; vm_compute; reflexivity.
Qed.

(** C7 as stated fails: [schmidt(20)] is further than half a hundredth
    from 668.84, in exact arithmetic and in binary64. *)
Lemma schmidt_20_counterexample :
  ~ (Rabs (schmidt (F:=R) 20 - 668.84) <= 0.005)%R /\
  PrimFloat.ltb (schmidt (F:=float) 20%float) 668.835 = true.
Proof.
  split.
  - rewrite schmidt_20_value, Rabs_left by lra. lra.
  - vm_compute. reflexivity.
Qed.

(** ** C4: total boron *)

(** C4.  For every salinity [S] (non-negative or not), [calc_boron(S)] is
    the product of the constant [0.0004157 / 35] with [S]: in any
    arithmetic; in binary64, bit for bit, with the quotient rounded once
    when the constant is defined; and in exact arithmetic. *)
Theorem calc_boron_exact :
  (forall (F : Type) (A : Arith F) (salinity : F),
     calc_boron salinity = (#0.0004157 /. i#35) *. salinity) /\
  (forall salinity : float, calc_boron salinity = (0.0004157 / 35 * salinity)%float) /\
  (forall salinity : R, calc_boron salinity = (0.0004157 / 35 * salinity)%R).
Proof.
  split; [|split].
  - intros F A salinity. unfold calc_boron, BORON_COEFFICIENT. reflexivity.
  - intros salinity. unfold calc_boron. simpl. f_equal.
  - intros salinity. unfold calc_boron, BORON_COEFFICIENT. simpl. unfold Q2R. simpl. lra.
Qed.

(** ** C10: the two implementations of K0 *)

(** C10.  [calculate_k0] and [calc_k0] return the same value at every
    temperature and salinity, whatever the arithmetic and whatever [np.log]
    and [np.exp] compute: the two bodies apply the same operations to the
    same operands in the same order. *)
Theorem calculate_k0_calc_k0 (F : Type) (A : Arith F) (E : Elementary F)
    (temp_kelvin salinity : F) :
  calculate_k0 temp_kelvin salinity = calc_k0 temp_kelvin salinity.
Proof.
  unfold calculate_k0, calc_k0. cbv zeta.
  f_equal.
Qed.

(** ** C3: piston velocity *)

(** C3.  In any arithmetic, [piston_velocity(w, T_C, S)] is
    [0.24 * kappa * k0], with [kappa = 0.251 * w^2 * (schmidt(T_C) / 660)^-0.5]
    and [k0] the Weiss (1974) constant [calculate_k0] at [T_C + 273.15]
    Kelvin and salinity [S]; in exact arithmetic [k0] is
    [exp(-60.2409 + 93.4517 / t + 23.3585 ln t
         + S (0.023517 - 0.023656 t + 0.0047036 t^2))] at
    [t = (T_C + 273.15) / 100]. *)
Theorem piston_velocity_formula :
  (forall (F : Type) (A : Arith F) (E : Elementary F) (wind_speed temp_celsius salinity : F),
     let kappa := #0.251 *. wind_speed ** 2 *. (schmidt temp_celsius /. i#660) **. #(-0.5) in
     let k0 := calculate_k0 (temp_celsius +. #273.15) salinity in
     piston_velocity wind_speed temp_celsius salinity = #0.24 *. kappa *. k0) /\
  (forall wind_speed temp_celsius salinity : R,
     let t := ((temp_celsius + 273.15) / 100)%R in
     let kappa :=
       (0.251 * wind_speed ^ 2 * Rpower (schmidt temp_celsius / 660) (-0.5))%R in
     let k0 :=
       exp (-60.2409 + 93.4517 / t + 23.3585 * ln t
            + salinity * (0.023517 - 0.023656 * t + 0.0047036 * t ^ 2))%R in
     piston_velocity wind_speed temp_celsius salinity = (0.24 * kappa * k0)%R).
Proof.
  split.
  - intros F A E wind_speed temp_celsius salinity. cbv zeta.
    unfold piston_velocity, calculate_kappa. reflexivity.
  - intros wind_speed temp_celsius salinity. cbv zeta.
    unfold piston_velocity, calculate_kappa, calculate_k0. simpl.
    unfold Q2R. simpl. reflexivity.
Qed.

(** ** C2: the alkalinity regression and the library's one [raise] *)

Section NoExplicitRaise.
Context {F : Type} `{Elementary F}.

Lemma no_explicit_raise_bind {A B : Type} (r : result A) (k : A -> result B) :
  no_explicit_raise r -> (forall a, no_explicit_raise (k a)) ->
  no_explicit_raise (r ≫= k).
Proof. intros Hr Hk. destruct r as [a|[] e]; simpl in *; auto. Qed.

Lemma no_explicit_raise_call {A : Type} (r : pyexc + A) : no_explicit_raise (call r).
Proof. by destruct r. Qed.

Lemma no_explicit_raise_index (a : list F) i : no_explicit_raise (index a i).
Proof. unfold index. by destruct (a !! i). Qed.

Lemma no_explicit_raise_column (df : gmap string (list F)) name :
  no_explicit_raise (column df name).
Proof. unfold column. by destruct (df !! name). Qed.

Lemma no_explicit_raise_np_add (a b : list F) : no_explicit_raise (np_add a b).
Proof.
  unfold np_add. destruct (length a =? length b)%nat; [done|].
  destruct a as [|x [|x' a]], b as [|y [|y' b]]; done.
Qed.

Lemma no_explicit_raise_np_tile (a : list F) reps : no_explicit_raise (np_tile a reps).
Proof. unfold np_tile. by destruct (reps <? 0)%Z. Qed.

(** One step through a sequence of calls: split a bind, or close a call
    that is known not to raise of its own. *)
Ltac no_raise_step :=
  first [ apply no_explicit_raise_bind; [|intros ?]
        | apply no_explicit_raise_call
        | apply no_explicit_raise_index
        | apply no_explicit_raise_column
        | apply no_explicit_raise_np_add
        | apply no_explicit_raise_np_tile
        | exact I ].

Lemma no_explicit_raise_loop_years (vec : list F) : no_explicit_raise (loop_years vec).
Proof. unfold loop_years, loop_year_correction. repeat no_raise_step. Qed.

Lemma no_explicit_raise_load_real_data module_dir read_hdf prefix n :
  no_explicit_raise (load_real_data (F:=F) module_dir read_hdf prefix n).
Proof.
  unfold load_real_data.
  repeat first [apply no_explicit_raise_loop_years | no_raise_step].
Qed.

Lemma no_explicit_raise_load_seasonal_forcings n :
  no_explicit_raise (load_seasonal_forcings (F:=F) n).
Proof.
  unfold load_seasonal_forcings. repeat no_raise_step.
Qed.

End NoExplicitRaise.

(** C2.  In any arithmetic, [calc_talk(salt, pref)] returns
    [48.7 * salt + 608.8] for ["se"], [46.6 * salt + 670.6] for ["me"] and
    [39.1 * salt + 932.7] for ["ne"]; for every other string it raises
    a ValueError, by the library's own [raise], whose message contains
    ['se'], ['me'] and ['ne'].  No other operation of the library raises of
    its own: the two loaders and [compute_initial_conditions] only pass on
    what the interpreter, numpy, pandas or the solver raise, and the
    formulas of [constants.py] are plain functions on numbers. *)
Theorem calc_talk_regions (F : Type) (A : Arith F) (E : Elementary F) (salt : F) :
  calc_talk salt "se" = Ok (#48.7 *. salt +. #608.8) /\
  calc_talk salt "me" = Ok (#46.6 *. salt +. #670.6) /\
  calc_talk salt "ne" = Ok (#39.1 *. salt +. #932.7) /\
  (forall pref : string,
     pref <> "se" -> pref <> "me" -> pref <> "ne" ->
     exists msg : string,
       calc_talk salt pref = Error Explicit (ValueError msg) /\
       occurs_in "'se'" msg = true /\ occurs_in "'me'" msg = true /\
       occurs_in "'ne'" msg = true) /\
  (forall module_dir read_hdf prefix n,
     no_explicit_raise (load_real_data (F:=F) module_dir read_hdf prefix n)) /\
  (forall n, no_explicit_raise (load_seasonal_forcings (F:=F) n)) /\
  (forall (B : Type) (pyco2_sys : gmap string (pyval F) -> pyexc + B) pCO2 alk temp sal,
     no_explicit_raise (compute_initial_conditions B pyco2_sys pCO2 alk temp sal)).
Proof.
  split; [reflexivity|]. split; [reflexivity|]. split; [reflexivity|].
  split; [|split; [|split]].
  - intros pref Hse Hme Hne.
    exists "Invalid region code. Use 'se', 'me', or 'ne'.".
    split; [|by vm_compute].
    unfold calc_talk.
    destruct (String.eqb_spec pref "se"); [done|].
    destruct (String.eqb_spec pref "me"); [done|].
    destruct (String.eqb_spec pref "ne"); [done|].
    reflexivity.
  - apply no_explicit_raise_load_real_data.
  - apply no_explicit_raise_load_seasonal_forcings.
  - intros B pyco2_sys pCO2 alk temp sal. apply no_explicit_raise_call.
Qed.

Lemma calc_talk_regions_witness :
  exists msg : string,
    calc_talk 35%R "gom" = Error Explicit (ValueError msg) /\
    occurs_in "'se'" msg = true /\ occurs_in "'me'" msg = true /\
    occurs_in "'ne'" msg = true.
Proof.
  apply (proj1 (proj2 (proj2 (proj2 (calc_talk_regions R _ _ 35%R)))) "gom");
    discriminate.
Defined.

(** ** C8: the call into the carbonate solver *)

(** C8.  Whatever the solver, [compute_initial_conditions(pCO2, alk, temp,
    sal)] calls it once, with exactly six keyword arguments: [par1] is [alk]
    and [par1_type] the code of total alkalinity, [par2] is [pCO2] and
    [par2_type] the code of pCO2, [temperature] is [temp] and [salinity] is
    [sal], each passed as it came; and it returns what the solver returns,
    its mapping or its exception, unchanged. *)
Theorem compute_initial_conditions_call (F B : Type)
    (pyco2_sys : gmap string (pyval F) -> pyexc + B) (pCO2 alk temp sal : F) :
  exists kwargs : gmap string (pyval F),
    kwargs !! "par1" = Some (VFloat alk) /\
    kwargs !! "par1_type" = Some (VInt (par_type_code TotalAlkalinity)) /\
    kwargs !! "par2" = Some (VFloat pCO2) /\
    kwargs !! "par2_type" = Some (VInt (par_type_code PartialPressureCO2)) /\
    kwargs !! "temperature" = Some (VFloat temp) /\
    kwargs !! "salinity" = Some (VFloat sal) /\
    dom kwargs
      = ({["par1"; "par1_type"; "par2"; "par2_type"; "temperature"; "salinity"]} : gset string) /\
    compute_initial_conditions B pyco2_sys pCO2 alk temp sal = call (pyco2_sys kwargs) /\
    (forall out : B, pyco2_sys kwargs = inr out ->
       compute_initial_conditions B pyco2_sys pCO2 alk temp sal = Ok out) /\
    (forall e : pyexc, pyco2_sys kwargs = inl e ->
       compute_initial_conditions B pyco2_sys pCO2 alk temp sal = Error Implicit e).
Proof.
  exists (initial_conditions_kwargs pCO2 alk temp sal).
  unfold compute_initial_conditions, initial_conditions_kwargs.
  do 6 (split; [by simplify_map_eq|]).
  split; [rewrite !dom_insert_L, dom_empty_L; set_solver|].
  split; [reflexivity|].
  split.
  - intros out Hout. by rewrite Hout.
  - intros e He. by rewrite He.
Qed.

(** * Further properties *)

(** ** Where [loop_years] and [load_real_data] fail *)

Section LoaderFailures.
Context {F : Type} `{Arith F}.
Implicit Types vec : list F.

Lemma np_add_mismatch (a b : list F) :
  length a <> length b -> (2 <= length a)%nat -> (2 <= length b)%nat ->
  np_add a b = Error Implicit (ValueError (broadcast_message (length a) (length b))).
Proof.
  intros Hne Ha Hb. unfold np_add.
  rewrite (proj2 (Nat.eqb_neq _ _) Hne).
  destruct a as [|x [|x' a]]; simpl in Ha; try lia.
  destruct b as [|y [|y' b]]; simpl in Hb; try lia.
  reflexivity.
Qed.

Lemma loop_years_short vec :
  (length vec < 365)%nat -> loop_years vec = Error Implicit IndexError.
Proof.
  intros Hl. unfold loop_years, loop_year_correction, index.
  destruct (vec !! 0%nat) as [v0|]; [|reflexivity]. simpl.
  by rewrite (lookup_ge_None_2 vec 364) by lia.
Qed.

Lemma loop_years_long vec :
  (365 < length vec)%nat ->
  loop_years vec = Error Implicit (ValueError (broadcast_message (length vec) 365)).
Proof.
  intros Hl. unfold loop_years, loop_year_correction.
  destruct (lookup_lt_is_Some_2 vec 0) as [v0 H0]; [lia|].
  destruct (lookup_lt_is_Some_2 vec 364) as [v364 H364]; [lia|].
  rewrite (index_lookup _ _ _ H0), (index_lookup _ _ _ H364). simpl.
  rewrite np_add_mismatch; [|rewrite length_np_linspace; lia|lia|].
  - by rewrite length_np_linspace.
  - rewrite length_np_linspace. lia.
Qed.

End LoaderFailures.

(** X1.  In any arithmetic, [loop_years] accepts exactly the arrays of 365
    points: on a shorter one [vec[0]] or [vec[364]] is out of range
    (IndexError), on a longer one [vec + slope] cannot be broadcast against
    the 365-point ramp (numpy's ValueError, whose message names the two
    shapes: the length of [vec] and 365), and on 365 points it returns a
    year [c] of 365 values twice over. *)
Theorem loop_years_domain (F : Type) (A : Arith F) (vec : list F) :
  ((length vec < 365)%nat -> loop_years vec = Error Implicit IndexError) /\
  (length vec = 365%nat ->
     exists c : list F, loop_years vec = Ok (c ++ c) /\ length c = 365%nat) /\
  ((365 < length vec)%nat ->
     loop_years vec
     = Error Implicit
         (ValueError ("operands could not be broadcast together with shapes ("
                      +:+ pretty (length vec) +:+ ",) (365,) "))).
Proof.
  split; [apply loop_years_short|]. split; [|apply loop_years_long].
  intros Hl. destruct (year_endpoints vec Hl) as (v0 & v364 & H0 & H364).
  eexists. split; [exact (loop_years_365 vec v0 v364 Hl H0 H364)|].
  apply length_corrected; [done|apply length_np_linspace].
Qed.

Lemma loop_years_domain_witness :
  loop_years (replicate 364 1%float) = Error Implicit IndexError /\
  (exists c : list float,
     loop_years (replicate 365 1%float) = Ok (c ++ c) /\ length c = 365%nat) /\
  loop_years (replicate 366 1%float)
  = Error Implicit
      (ValueError "operands could not be broadcast together with shapes (366,) (365,) ").
Proof.
  split; [|split].
  - apply (proj1 (loop_years_domain float _ (replicate 364 1%float))).
    rewrite length_replicate. lia.
  - apply (proj1 (proj2 (loop_years_domain float _ (replicate 365 1%float)))).
    by rewrite length_replicate.
  - apply (proj2 (proj2 (loop_years_domain float _ (replicate 366 1%float)))).
    rewrite length_replicate. lia.
Defined.

(** X2.  In any arithmetic and for any number of years, [load_real_data]
    fails before it looks at the number of years when its dataset is not in
    place: an exception of [pd.read_hdf] is passed on unchanged; a missing
    temperature column is a KeyError on [prefix + "temp"], raised before the
    salinity column is looked up; a temperature column of fewer than 365
    rows is an IndexError; and with the temperature column in order, a
    missing salinity column is a KeyError on [prefix + "salt"] and one of
    fewer than 365 rows an IndexError. *)
Theorem load_real_data_failures (F : Type) (A : Arith F)
    (module_dir : string) (read_hdf : string -> pyexc + gmap string (list F))
    (prefix : string) (simulation_length_years : Z) :
  (forall e : pyexc,
     read_hdf (file_path module_dir) = inl e ->
     load_real_data module_dir read_hdf prefix simulation_length_years
     = Error Implicit e) /\
  (forall df : gmap string (list F),
     read_hdf (file_path module_dir) = inr df ->
     (df !! (prefix +:+ "temp") = None ->
      load_real_data module_dir read_hdf prefix simulation_length_years
      = Error Implicit (KeyError (prefix +:+ "temp"))) /\
     (forall temp_col : list F,
        df !! (prefix +:+ "temp") = Some temp_col ->
        ((length temp_col < 365)%nat ->
         load_real_data module_dir read_hdf prefix simulation_length_years
         = Error Implicit IndexError) /\
        ((365 <= length temp_col)%nat ->
         (df !! (prefix +:+ "salt") = None ->
          load_real_data module_dir read_hdf prefix simulation_length_years
          = Error Implicit (KeyError (prefix +:+ "salt"))) /\
         (forall salt_col : list F,
            df !! (prefix +:+ "salt") = Some salt_col ->
            (length salt_col < 365)%nat ->
            load_real_data module_dir read_hdf prefix simulation_length_years
            = Error Implicit IndexError)))).
Proof.
  split.
  - intros e He. unfold load_real_data. by rewrite He.
  - intros df Hdf. split.
    + intros Ht. unfold load_real_data, column. rewrite Hdf. simpl. by rewrite Ht.
    + intros temp_col Ht. split.
      * intros Hl. unfold load_real_data, column. rewrite Hdf. simpl. rewrite Ht. simpl.
        by rewrite loop_years_short by (rewrite length_take; lia).
      * intros Hl.
        assert (Hl' : length (take 365 temp_col) = 365%nat) by (rewrite length_take; lia).
        destruct (year_endpoints _ Hl') as (t0 & t364 & Ht0 & Ht364).
        split.
        -- intros Hs. unfold load_real_data, column. rewrite Hdf. simpl. rewrite Ht. simpl.
           rewrite (loop_years_365 _ _ _ Hl' Ht0 Ht364). simpl. by rewrite Hs.
        -- intros salt_col Hs Hls. unfold load_real_data, column.
           rewrite Hdf. simpl. rewrite Ht. simpl.
           rewrite (loop_years_365 _ _ _ Hl' Ht0 Ht364). simpl. rewrite Hs. simpl.
           by rewrite loop_years_short by (rewrite length_take; lia).
Qed.

Lemma load_real_data_failures_witness :
  load_real_data (F:=R) "/opt/model/utils" (fun _ => inl OSError) "se_" 2
  = Error Implicit OSError /\
  load_real_data "/opt/model/utils" example_read_hdf "ne_" 2
  = Error Implicit (KeyError ("ne_" +:+ "temp")).
Proof.
  split.
  - apply (proj1 (load_real_data_failures R _ "/opt/model/utils"
                    (fun _ => inl OSError) "se_" 2) OSError).
    reflexivity.
  - apply (proj1 (proj2 (load_real_data_failures R _ "/opt/model/utils"
                           example_read_hdf "ne_" 2) example_dataset eq_refl)).
    vm_compute. reflexivity.
Defined.

(** ** Every year of a series is the same year *)

Section LoaderTail.
Context {F : Type} `{Arith F}.
Variable module_dir : string.
Variable read_hdf : string -> pyexc + gmap string (list F).

(** With the dataset in place, what is left of [load_real_data] is the
    tiling and cutting of the two corrected years. *)
Lemma load_real_data_tail (prefix : string) (n : Z) df temp_col salt_col :
  read_hdf (file_path module_dir) = inr df ->
  df !! (prefix +:+ "temp") = Some temp_col ->
  df !! (prefix +:+ "salt") = Some salt_col ->
  (365 <= length temp_col)%nat -> (365 <= length salt_col)%nat ->
  exists ct cs : list F,
    loop_years (take 365 temp_col) = Ok (ct ++ ct) /\
    loop_years (take 365 salt_col) = Ok (cs ++ cs) /\
    length ct = 365%nat /\ length cs = 365%nat /\
    load_real_data module_dir read_hdf prefix n =
      (temperature ← np_tile (ct ++ ct) (n + 1);
       salinity ← np_tile (cs ++ cs) (n + 1);
       Ok (slice_to temperature (n * 365), slice_to salinity (n * 365))).
Proof.
  intros Hdf Ht Hs Hlt Hls.
  assert (Hlt' : length (take 365 temp_col) = 365%nat) by (rewrite length_take; lia).
  assert (Hls' : length (take 365 salt_col) = 365%nat) by (rewrite length_take; lia).
  destruct (year_endpoints _ Hlt') as (t0 & t364 & Ht0 & Ht364).
  destruct (year_endpoints _ Hls') as (s0 & s364 & Hs0 & Hs364).
  eexists _, _.
  split; [exact (loop_years_365 _ _ _ Hlt' Ht0 Ht364)|].
  split; [exact (loop_years_365 _ _ _ Hls' Hs0 Hs364)|].
  split; [apply length_corrected; [done|apply length_np_linspace]|].
  split; [apply length_corrected; [done|apply length_np_linspace]|].
  unfold load_real_data. rewrite Hdf. simpl.
  unfold column. rewrite Ht, Hs. simpl.
  rewrite (loop_years_365 _ _ _ Hlt' Ht0 Ht364). simpl.
  rewrite (loop_years_365 _ _ _ Hls' Hs0 Hs364). simpl.
  rewrite Z.div_mul by lia.
  destruct (np_tile _ (n + 1)); [|done]. simpl.
  by destruct (np_tile _ (n + 1)).
Qed.

End LoaderTail.

(** X3.  In any arithmetic (so bit for bit in binary64), with the dataset
    in place and a positive number of years, every year of the two series
    [load_real_data] returns is the same corrected year: day [d] of year
    [year] is day [d] of the year [loop_years] makes of the first 365 rows
    of the column.  Rows after the first 365 play no part. *)
Theorem load_real_data_years_repeat (F : Type) (A : Arith F)
    (module_dir : string) (read_hdf : string -> pyexc + gmap string (list F))
    (prefix : string) (simulation_length_years : Z)
    (df : gmap string (list F)) (temp_col salt_col : list F) :
  (0 < simulation_length_years)%Z ->
  read_hdf (file_path module_dir) = inr df ->
  df !! (prefix +:+ "temp") = Some temp_col ->
  df !! (prefix +:+ "salt") = Some salt_col ->
  (365 <= length temp_col)%nat -> (365 <= length salt_col)%nat ->
  exists temperature salinity ct cs : list F,
    load_real_data module_dir read_hdf prefix simulation_length_years
      = Ok (temperature, salinity) /\
    loop_years (take 365 temp_col) = Ok (ct ++ ct) /\
    loop_years (take 365 salt_col) = Ok (cs ++ cs) /\
    forall year d : nat,
      (Z.of_nat year < simulation_length_years)%Z -> (d < 365)%nat ->
      temperature !! (365 * year + d)%nat = ct !! d /\
      salinity !! (365 * year + d)%nat = cs !! d.
Proof.
  intros Hn Hdf Ht Hs Hlt Hls.
  destruct (load_real_data_ok module_dir read_hdf prefix simulation_length_years
              df temp_col salt_col) as (ct & cs & Hct' & Hcs' & Hct & Hcs & Hload);
    [lia|done..|].
  eexists _, _, ct, cs. split; [exact Hload|]. split; [done|]. split; [done|].
  intros year d Hy Hd. by rewrite !tiled_day by (done || lia).
Qed.

Lemma load_real_data_years_repeat_witness :
  exists temperature salinity ct cs : list R,
    load_real_data "/opt/model/utils" example_read_hdf "se_" 2
      = Ok (temperature, salinity) /\
    loop_years (take 365 (replicate 365 15%R)) = Ok (ct ++ ct) /\
    loop_years (take 365 (replicate 365 35%R)) = Ok (cs ++ cs) /\
    forall year d : nat,
      (Z.of_nat year < 2)%Z -> (d < 365)%nat ->
      temperature !! (365 * year + d)%nat = ct !! d /\
      salinity !! (365 * year + d)%nat = cs !! d.
Proof.
  apply (load_real_data_years_repeat R _ "/opt/model/utils" example_read_hdf "se_" 2
           example_dataset (replicate 365 15%R) (replicate 365 35%R)).
  - lia.
  - reflexivity.
  - vm_compute. reflexivity.
  - vm_compute. reflexivity.
  - rewrite length_replicate. lia.
  - rewrite length_replicate. lia.
Defined.

(** X4.  In any arithmetic, for every number of years [n >= 0] the
    idealized generator returns, and day [d] of every year of its series is
    the sinusoid evaluated at [d]:
    [15 + 7.5 sin(2 pi (d - 180) / 365)] for temperature and
    [33.5 + 0.5 sin(2 pi (d + 31) / 365)] for salinity. *)
Theorem seasonal_series_days (F : Type) (A : Arith F) (E : Elementary F)
    (simulation_length_years : Z) :
  (0 <= simulation_length_years)%Z ->
  exists temperature salinity : list F,
    load_seasonal_forcings simulation_length_years = Ok (temperature, salinity) /\
    forall year d : nat,
      (Z.of_nat year < simulation_length_years)%Z -> (d < 365)%nat ->
      temperature !! (365 * year + d)%nat
      = Some (i#15 +. #7.5 *. fsin (i#2 *. fpi *. fint (Z.of_nat d - 180) /. i#365)) /\
      salinity !! (365 * year + d)%nat
      = Some (#33.5 +. #0.5 *. fsin (i#2 *. fpi *. fint (Z.of_nat d + 31) /. i#365)).
Proof.
  intros Hn. eexists _, _.
  split; [exact (load_seasonal_forcings_ok simulation_length_years Hn)|].
  intros year d Hy Hd. split.
  - rewrite (seasonal_day temperature_one_year simulation_length_years year d
               length_temperature_one_year Hy Hd).
    unfold temperature_one_year.
    by rewrite list_lookup_fmap, np_arange_lookup by (unfold days_in_year; lia).
  - rewrite (seasonal_day salinity_one_year simulation_length_years year d
               length_salinity_one_year Hy Hd).
    unfold salinity_one_year.
    by rewrite list_lookup_fmap, np_arange_lookup by (unfold days_in_year; lia).
Qed.

Lemma seasonal_series_days_witness :
  exists temperature salinity : list R,
    load_seasonal_forcings 7 = Ok (temperature, salinity) /\
    forall year d : nat,
      (Z.of_nat year < 7)%Z -> (d < 365)%nat ->
      temperature !! (365 * year + d)%nat
      = Some (i#15 +. #7.5 *. fsin (i#2 *. fpi *. fint (Z.of_nat d - 180) /. i#365)) /\
      salinity !! (365 * year + d)%nat
      = Some (#33.5 +. #0.5 *. fsin (i#2 *. fpi *. fint (Z.of_nat d + 31) /. i#365)).
Proof. apply (seasonal_series_days R _ _ 7). lia. Defined.

(** ** A number of years that is not positive *)

(** X5.  In any arithmetic, the two generators part ways on a number of
    years that is not positive.  The idealized one returns two empty series
    for 0 and is refused by [np.tile] (ValueError) for every negative
    number.  The historical one, with its dataset in place, returns two
    empty series for 0 and also for -1 (it tiles [n + 1] copies, then cuts
    to a negative length), and is refused by [np.tile] only from -2 down. *)
Theorem nonpositive_years (F : Type) (A : Arith F) (E : Elementary F)
    (module_dir : string) (read_hdf : string -> pyexc + gmap string (list F))
    (prefix : string) (df : gmap string (list F)) (temp_col salt_col : list F) :
  read_hdf (file_path module_dir) = inr df ->
  df !! (prefix +:+ "temp") = Some temp_col ->
  df !! (prefix +:+ "salt") = Some salt_col ->
  (365 <= length temp_col)%nat -> (365 <= length salt_col)%nat ->
  load_seasonal_forcings (F:=F) 0 = Ok ([], []) /\
  (forall n : Z, (n < 0)%Z ->
     load_seasonal_forcings (F:=F) n
     = Error Implicit (ValueError "negative dimensions are not allowed")) /\
  load_real_data module_dir read_hdf prefix 0 = Ok ([], []) /\
  load_real_data module_dir read_hdf prefix (-1) = Ok ([], []) /\
  (forall n : Z, (n < -1)%Z ->
     load_real_data module_dir read_hdf prefix n
     = Error Implicit (ValueError "negative dimensions are not allowed")).
Proof.
  intros Hdf Ht Hs Hlt Hls.
  assert (Htail := fun n => load_real_data_tail module_dir read_hdf prefix n
                             df temp_col salt_col Hdf Ht Hs Hlt Hls).
  split; [reflexivity|]. split; [|split; [|split]].
  - intros n Hn. unfold load_seasonal_forcings, np_tile.
    by rewrite (proj2 (Z.ltb_lt n 0) Hn).
  - destruct (Htail 0%Z) as (ct & cs & _ & _ & _ & _ & ->). reflexivity.
  - destruct (Htail (-1)%Z) as (ct & cs & _ & _ & _ & _ & ->). reflexivity.
  - intros n Hn. destruct (Htail n) as (ct & cs & _ & _ & _ & _ & ->).
    unfold np_tile. by rewrite (proj2 (Z.ltb_lt (n + 1) 0)) by lia.
Qed.

Lemma nonpositive_years_witness :
  load_seasonal_forcings (F:=R) 0 = Ok ([], []) /\
  (forall n : Z, (n < 0)%Z ->
     load_seasonal_forcings (F:=R) n
     = Error Implicit (ValueError "negative dimensions are not allowed")) /\
  load_real_data "/opt/model/utils" example_read_hdf "se_" 0 = Ok ([], []) /\
  load_real_data "/opt/model/utils" example_read_hdf "se_" (-1) = Ok ([], []) /\
  (forall n : Z, (n < -1)%Z ->
     load_real_data "/opt/model/utils" example_read_hdf "se_" n
     = Error Implicit (ValueError "negative dimensions are not allowed")).
Proof.
  apply (nonpositive_years R _ _ "/opt/model/utils" example_read_hdf "se_"
           example_dataset (replicate 365 15%R) (replicate 365 35%R)).
  - reflexivity.
  - vm_compute. reflexivity.
  - vm_compute. reflexivity.
  - rewrite length_replicate. lia.
  - rewrite length_replicate. lia.
Defined.

(** ** The shape of the correction, in exact arithmetic *)

Section ExactRamp.
Local Open Scope R_scope.
Implicit Types vec : list R.

(** Sample [i] of the ramp from 0 to [stop] is [i * stop / 364]. *)
Lemma slope_lookup_exact (stop : R) (i : nat) :
  (i < 365)%nat ->
  np_linspace (F:=R) i#0 stop 365 !! i = Some (INR i * stop / 364).
Proof.
  intros Hi. rewrite INR_IZR_INZ. destruct (decide (i = 364%nat)) as [->|Hne].
  - change 364%nat with (365 - 1)%nat at 1.
    rewrite np_linspace_last by lia. f_equal.
    change (Z.of_nat 364) with 364%Z. lra.
  - rewrite np_linspace_lookup by lia. cbv zeta. f_equal.
    change (Z.of_nat (365 - 1)) with 364%Z.
    simpl. generalize (IZR (Z.of_nat i)). intros r.
    unfold R_is_zero.
    destruct (Req_dec_T _ _) as [Hz|Hnz]; [|lra].
    assert (stop = 0) as -> by lra. lra.
Qed.

Lemma corrected_lookup_exact vec v0 v364 (i : nat) (x : R) :
  (i < 365)%nat -> vec !! i = Some x ->
  zip_with fadd vec (np_linspace (F:=R) i#0 (v0 -. v364) 365) !! i
  = Some (x + INR i * (v0 - v364) / 364).
Proof.
  intros Hi Hx. by rewrite lookup_zip_with, Hx, slope_lookup_exact.
Qed.

End ExactRamp.

(** X6.  In exact arithmetic, the correction of a 365-point year adds to
    day [i] the amount [i * (vec[0] - vec[364]) / 364]: a straight ramp from
    0 on day 0 to the whole gap on day 364, in 364 equal steps. *)
Theorem loop_years_ramp (vec : list R) :
  length vec = 365%nat ->
  exists (c : list R) (v0 v364 : R),
    vec !! 0%nat = Some v0 /\ vec !! 364%nat = Some v364 /\
    loop_years vec = Ok (c ++ c) /\
    forall (i : nat) (x : R),
      vec !! i = Some x -> c !! i = Some (x + INR i * (v0 - v364) / 364)%R.
Proof.
  intros Hl. destruct (year_endpoints vec Hl) as (v0 & v364 & H0 & H364).
  eexists _, v0, v364. split; [done|]. split; [done|].
  split; [exact (loop_years_365 vec v0 v364 Hl H0 H364)|].
  intros i x Hx. apply corrected_lookup_exact; [|done].
  apply lookup_lt_Some in Hx. lia.
Qed.

Lemma loop_years_ramp_witness :
  exists (c : list R) (v0 v364 : R),
    (1%R :: replicate 364 0%R) !! 0%nat = Some v0 /\
    (1%R :: replicate 364 0%R) !! 364%nat = Some v364 /\
    loop_years (1%R :: replicate 364 0%R) = Ok (c ++ c) /\
    forall (i : nat) (x : R),
      (1%R :: replicate 364 0%R) !! i = Some x ->
      c !! i = Some (x + INR i * (v0 - v364) / 364)%R.
Proof. apply (loop_years_ramp (1%R :: replicate 364 0%R)). reflexivity. Defined.

(** X7.  In exact arithmetic, a year that already ends where it starts
    ([vec[364] = vec[0]]) passes through [loop_years] unchanged, doubled;
    and since a corrected year ends where it starts, correcting it again
    changes nothing. *)
Theorem loop_years_fixed_point (vec : list R) :
  length vec = 365%nat ->
  (vec !! 364%nat = vec !! 0%nat -> loop_years vec = Ok (vec ++ vec)) /\
  (exists c : list R, loop_years vec = Ok (c ++ c) /\ loop_years c = Ok (c ++ c)).
Proof.
  intros Hl.
  assert (Hfix : forall w : list R, length w = 365%nat ->
            w !! 364%nat = w !! 0%nat -> loop_years w = Ok (w ++ w)).
  { intros w Hw Hclosed.
    destruct (year_endpoints w Hw) as (w0 & w364 & H0 & H364).
    rewrite (loop_years_365 w w0 w364 Hw H0 H364).
    assert (Hc : zip_with fadd w (np_linspace (F:=R) i#0 (w0 -. w364) 365) = w).
    { apply list_eq. intros i. destruct (w !! i) as [x|] eqn:Hx.
      - rewrite (corrected_lookup_exact w w0 w364 i x)
          by (done || (apply lookup_lt_Some in Hx; lia)).
        f_equal. rewrite H0, H364 in Hclosed. injection Hclosed as ->.
        unfold Rdiv. rewrite Rminus_diag, Rmult_0_r, Rmult_0_l. apply Rplus_0_r.
      - apply lookup_ge_None. rewrite length_zip_with.
        apply lookup_ge_None in Hx. lia. }
    by rewrite Hc. }
  split; [by apply Hfix|].
  destruct (loop_years_exact vec Hl) as (c & v0 & Hout & Hc & _ & Hc0 & Hc364).
  exists c. split; [done|]. apply Hfix; [done|]. by rewrite Hc0, Hc364.
Qed.

Lemma loop_years_fixed_point_witness :
  (replicate 365 15%R !! 364%nat = replicate 365 15%R !! 0%nat ->
   loop_years (replicate 365 15%R) = Ok (replicate 365 15%R ++ replicate 365 15%R)) /\
  (exists c : list R,
     loop_years (replicate 365 15%R) = Ok (c ++ c) /\ loop_years c = Ok (c ++ c)).
Proof. apply (loop_years_fixed_point (replicate 365 15%R)). reflexivity. Defined.

(** ** The range of the seasonal curves, in exact arithmetic *)

Lemma Forall_tile {A : Type} `{Arith A} (P : A -> Prop) (a : list A) (reps : nat) :
  Forall P a -> Forall P (tile a reps).
Proof.
  intros Ha. induction reps as [|r IH]; simpl; [constructor|].
  by apply Forall_app.
Qed.

(** X8.  In exact arithmetic, for every number of years [n >= 0], every
    value of the temperature series lies between 7.5 and 22.5 (mean 15,
    amplitude 7.5) and every value of the salinity series between 33 and 34
    (mean 33.5, amplitude 0.5). *)
Theorem seasonal_ranges (simulation_length_years : Z) :
  (0 <= simulation_length_years)%Z ->
  exists temperature salinity : list R,
    load_seasonal_forcings simulation_length_years = Ok (temperature, salinity) /\
    Forall (fun x : R => 7.5 <= x <= 22.5)%R temperature /\
    Forall (fun x : R => 33 <= x <= 34)%R salinity.
Proof.
  intros Hn. eexists _, _.
  split; [exact (load_seasonal_forcings_ok simulation_length_years Hn)|].
  split; apply Forall_tile, Forall_fmap, Forall_forall; intros day _; simpl;
    match goal with |- context [sin ?x] => pose proof (SIN_bound x) end;
    unfold Q2R; simpl; lra.
Qed.

Lemma seasonal_ranges_witness :
  exists temperature salinity : list R,
    load_seasonal_forcings 2 = Ok (temperature, salinity) /\
    Forall (fun x : R => 7.5 <= x <= 22.5)%R temperature /\
    Forall (fun x : R => 33 <= x <= 34)%R salinity.
Proof. apply (seasonal_ranges 2). lia. Defined.

(** ** The Schmidt number and the transfer velocity, in exact arithmetic *)

Section Schmidt.
Local Open Scope R_scope.

Lemma schmidt_difference (x y : R) :
  schmidt x - schmidt y = (y - x) * schmidt_chord x y.
Proof. unfold schmidt, schmidt_chord. simpl. unfold Q2R. simpl. field. Qed.

(** Every chord of the cubic slopes down: its discriminant is negative. *)
Lemma schmidt_chord_pos (x y : R) : 24 < schmidt_chord x y.
Proof.
  unfold schmidt_chord.
  pose proof (pow2_ge_0 (x - y)). pose proof (pow2_ge_0 (x + y - 56)).
  nra.
Qed.

Lemma schmidt_decreasing_lt (x y : R) : x < y -> schmidt y < schmidt x.
Proof.
  intros Hxy. pose proof (schmidt_difference x y) as Hd.
  pose proof (schmidt_chord_pos x y). nra.
Qed.

Lemma schmidt_40 : schmidt (F:=R) 40 = 86.444.
Proof. unfold schmidt. simpl. unfold Q2R. simpl. lra. Qed.

Lemma schmidt_pos_le_40 (t : R) : t <= 40 -> 86 < schmidt t.
Proof.
  intros Ht. destruct (Rle_lt_or_eq_dec t 40 Ht) as [Hlt| ->].
  - pose proof (schmidt_decreasing_lt t 40 Hlt) as Hd. rewrite schmidt_40 in Hd. lra.
  - rewrite schmidt_40. lra.
Qed.

End Schmidt.

(** X9.  In exact arithmetic the Schmidt number falls as the water warms:
    [schmidt] is strictly decreasing over all temperatures (the derivative
    of the cubic has no real root). *)
Theorem schmidt_strictly_decreasing (t1 t2 : R) :
  (t1 < t2)%R -> (schmidt t2 < schmidt t1)%R.
Proof. apply schmidt_decreasing_lt. Qed.

Lemma schmidt_strictly_decreasing_witness : (schmidt (F:=R) 20 < schmidt (F:=R) 10)%R.
Proof. apply (schmidt_strictly_decreasing 10 20). lra. Defined.

(** X10.  In exact arithmetic the Schmidt number stays above 86 up to
    40 degrees Celsius (it is 86.444 at 40), so over every sea temperature
    [calculate_kappa] raises a positive number to the power -0.5. *)
Theorem schmidt_positive_up_to_40 (temp_celsius : R) :
  (temp_celsius <= 40)%R ->
  (86 < schmidt temp_celsius)%R /\ (0 < schmidt temp_celsius / 660)%R.
Proof.
  intros Ht. pose proof (schmidt_pos_le_40 temp_celsius Ht). split; lra.
Qed.

Lemma schmidt_positive_up_to_40_witness :
  (86 < schmidt (F:=R) 15)%R /\ (0 < schmidt (F:=R) 15 / 660)%R.
Proof. apply (schmidt_positive_up_to_40 15). lra. Defined.

Section TransferVelocity.
Local Open Scope R_scope.

(** [calculate_kappa] and [piston_velocity] with the literals read as
    reals. *)
Lemma calculate_kappa_exact (w t : R) :
  calculate_kappa w t = 0.251 * (w * w) * Rpower (schmidt t / 660) (-0.5).
Proof.
  unfold calculate_kappa. simpl. unfold Q2R. simpl.
  rewrite Rmult_1_r. reflexivity.
Qed.

Lemma piston_velocity_exact (w t s : R) :
  piston_velocity w t s = 0.24 * calculate_kappa w t * calculate_k0 (t + 273.15) s.
Proof. unfold piston_velocity. simpl. unfold Q2R. simpl. reflexivity. Qed.

Lemma calculate_k0_pos (t s : R) : 0 < calculate_k0 t s.
Proof. unfold calculate_k0. cbv zeta. apply exp_pos. Qed.

Lemma Rpower_pos (x y : R) : 0 < Rpower x y.
Proof. unfold Rpower. apply exp_pos. Qed.

(** A negative power turns a larger base into a smaller value. *)
Lemma Rpower_neg_half_decreasing (x y : R) :
  0 < x -> x < y -> Rpower y (-0.5) < Rpower x (-0.5).
Proof.
  intros Hx Hxy. unfold Rpower. apply exp_increasing.
  pose proof (ln_increasing x y Hx Hxy). lra.
Qed.

End TransferVelocity.

(** X11.  In exact arithmetic, under any wind that is not zero,
    [calculate_kappa] rises strictly with the temperature up to 40 degrees
    Celsius: warmer water has the smaller Schmidt number and the larger
    transfer velocity. *)
Theorem calculate_kappa_rises_with_temperature (wind_speed t1 t2 : R) :
  wind_speed <> 0%R -> (t1 < t2)%R -> (t2 <= 40)%R ->
  (calculate_kappa wind_speed t1 < calculate_kappa wind_speed t2)%R.
Proof.
  intros Hw Ht Ht2. rewrite !calculate_kappa_exact.
  pose proof (schmidt_decreasing_lt t1 t2 Ht) as Hsc.
  pose proof (schmidt_pos_le_40 t2 Ht2) as Hpos.
  assert (Hp : (Rpower (schmidt t1 / 660) (-0.5) < Rpower (schmidt t2 / 660) (-0.5))%R)
    by (apply Rpower_neg_half_decreasing; lra).
  assert (Hw2 : (0 < wind_speed * wind_speed)%R) by nra.
  nra.
Qed.

Lemma calculate_kappa_rises_with_temperature_witness :
  (calculate_kappa 7 10 < calculate_kappa (F:=R) 7 20)%R.
Proof. apply (calculate_kappa_rises_with_temperature 7 10 20); lra. Defined.

(** X12.  In exact arithmetic, at any temperature between absolute zero
    and 40 degrees Celsius, the piston velocity goes with the square of the
    wind speed: scaling the wind by [c] scales it by [c * c]; so it is the
    same for [w] and [-w]. *)
Theorem piston_velocity_wind_square (c wind_speed temp_celsius salinity : R) :
  (-273.15 < temp_celsius <= 40)%R ->
  piston_velocity (c * wind_speed)%R temp_celsius salinity
  = (c * c * piston_velocity wind_speed temp_celsius salinity)%R /\
  piston_velocity (- wind_speed)%R temp_celsius salinity
  = piston_velocity wind_speed temp_celsius salinity.
Proof.
  intros _. rewrite !piston_velocity_exact, !calculate_kappa_exact. split; ring.
Qed.

Lemma piston_velocity_wind_square_witness :
  piston_velocity (2 * 7)%R 15%R 33.5%R
  = (2 * 2 * piston_velocity 7 15 33.5)%R /\
  piston_velocity (- 7)%R 15%R 33.5%R = piston_velocity 7%R 15%R 33.5%R.
Proof. apply (piston_velocity_wind_square 2 7 15 33.5). lra. Defined.

(** X13.  In exact arithmetic, at any temperature between absolute zero
    and 40 degrees Celsius and any salinity, the piston velocity is zero
    when there is no wind and strictly positive under any wind that is not
    zero. *)
Theorem piston_velocity_sign (wind_speed temp_celsius salinity : R) :
  (-273.15 < temp_celsius <= 40)%R ->
  (wind_speed = 0%R -> piston_velocity wind_speed temp_celsius salinity = 0%R) /\
  (wind_speed <> 0%R -> (0 < piston_velocity wind_speed temp_celsius salinity)%R).
Proof.
  intros _. rewrite piston_velocity_exact, calculate_kappa_exact.
  pose proof (Rpower_pos (schmidt temp_celsius / 660) (-0.5)) as Hp.
  pose proof (calculate_k0_pos (temp_celsius + 273.15) salinity) as Hk.
  split.
  - intros ->. ring.
  - intros Hw. assert (Hw2 : (0 < wind_speed * wind_speed)%R) by nra.
    apply Rmult_lt_0_compat; [|exact Hk].
    apply Rmult_lt_0_compat; [lra|].
    apply Rmult_lt_0_compat; [lra|exact Hp].
Qed.

Lemma piston_velocity_sign_witness :
  (7%R = 0%R -> piston_velocity 7%R 15%R 33.5%R = 0%R) /\
  (7%R <> 0%R -> (0 < piston_velocity 7 15 33.5)%R).
Proof. apply (piston_velocity_sign 7 15 33.5). lra. Defined.

(** ** Solubility, in exact arithmetic *)

Section Solubility.
Local Open Scope R_scope.

(** [calculate_k0] with the literals read as reals, at [t = T / 100]. *)
Lemma calculate_k0_exact (temp_kelvin salinity : R) :
  calculate_k0 temp_kelvin salinity
  = exp (-60.2409 + 93.4517 / (temp_kelvin / 100) + 23.3585 * ln (temp_kelvin / 100)
         + salinity * (0.023517 - 0.023656 * (temp_kelvin / 100)
                       + 0.0047036 * ((temp_kelvin / 100) * (temp_kelvin / 100)))).
Proof.
  unfold calculate_k0. simpl. unfold Q2R. simpl.
  rewrite Rmult_1_r. reflexivity.
Qed.

(** The salinity coefficient of [ln K0] is negative between 0 and 40
    degrees Celsius. *)
Lemma salting_out_coefficient (t : R) :
  2.7315 <= t <= 3.1315 -> 0.023517 - 0.023656 * t + 0.0047036 * (t * t) < -0.004.
Proof.
  intros Ht.
  assert (Hc : (t - 2.7315) * (t - 3.1315) <= 0) by nra.
  nra.
Qed.

End Solubility.

(** X14.  In exact arithmetic, at every temperature from 273.15 to
    313.15 Kelvin (0 to 40 degrees Celsius), CO2 is less soluble in saltier
    water: [calculate_k0] (and with it [calc_k0]) falls strictly as the
    salinity rises. *)
Theorem calculate_k0_falls_with_salinity (temp_kelvin s1 s2 : R) :
  (273.15 <= temp_kelvin <= 313.15)%R -> (s1 < s2)%R ->
  (calculate_k0 temp_kelvin s2 < calculate_k0 temp_kelvin s1)%R /\
  (calc_k0 temp_kelvin s2 < calc_k0 temp_kelvin s1)%R.
Proof.
  intros Ht Hs.
  assert (Hk : (calculate_k0 temp_kelvin s2 < calculate_k0 temp_kelvin s1)%R).
  { rewrite !calculate_k0_exact. apply exp_increasing.
    pose proof (salting_out_coefficient (temp_kelvin / 100) ltac:(lra)). nra. }
  split; [exact Hk|exact Hk].
Qed.

Lemma calculate_k0_falls_with_salinity_witness :
  (calculate_k0 288.15 35 < calculate_k0 (F:=R) 288.15 33)%R /\
  (calc_k0 288.15 35 < calc_k0 (F:=R) 288.15 33)%R.
Proof. apply (calculate_k0_falls_with_salinity 288.15 33 35); lra. Defined.

Section SolubilityTemperature.
Local Open Scope R_scope.

(** The logarithm lies below its tangent at 1. *)
Lemma ln_le_minus_1 (z : R) : 0 < z -> ln z <= z - 1.
Proof.
  intros Hz. pose proof (exp_ineq1_le (ln z)) as He.
  rewrite exp_ln in He by done. lra.
Qed.

(** ... and so below its tangent at any [x > 0]. *)
Lemma ln_chord (x y : R) : 0 < x -> 0 < y -> ln y - ln x <= (y - x) / x.
Proof.
  intros Hx Hy.
  assert (Hq : 0 < y / x) by (apply Rdiv_lt_0_compat; lra).
  pose proof (ln_le_minus_1 (y / x) Hq) as Hl.
  unfold Rdiv in Hl at 1. rewrite ln_mult, ln_Rinv in Hl by (done || by apply Rinv_0_lt_compat).
  replace ((y - x) / x) with (y / x - 1) by (field; lra). lra.
Qed.

(** The temperature part of [ln K0] between 0 and 40 degrees Celsius and
    up to a salinity of 40, cleared of denominators. *)
Lemma solubility_slope (t1 t2 s : R) :
  2.7315 <= t1 <= 3.1315 -> 2.7315 <= t2 <= 3.1315 -> 0 <= s <= 40 ->
  -93.4517 + 23.3585 * t2 + s * ((t1 * t2) * (-0.023656 + 0.0047036 * (t1 + t2))) < -15.
Proof.
  intros H1 H2 Hs.
  assert (Hp : 0 < t1 * t2 <= 9.81) by nra.
  assert (Hc : 0 < -0.023656 + 0.0047036 * (t1 + t2) <= 0.006) by lra.
  assert (Hpc : 0 <= (t1 * t2) * (-0.023656 + 0.0047036 * (t1 + t2)) <= 0.06) by nra.
  nra.
Qed.

(** The difference of the two exponents, with the logarithm replaced by
    its chord, as one product. *)
Lemma solubility_difference (t1 t2 s : R) :
  t1 <> 0 -> t2 <> 0 ->
  93.4517 / t2 - 93.4517 / t1 + 23.3585 * ((t2 - t1) / t1)
  + s * ((0.023517 - 0.023656 * t2 + 0.0047036 * (t2 * t2))
         - (0.023517 - 0.023656 * t1 + 0.0047036 * (t1 * t1)))
  = (t2 - t1) * (/ t1 * / t2)
    * (-93.4517 + 23.3585 * t2
       + s * ((t1 * t2) * (-0.023656 + 0.0047036 * (t1 + t2)))).
Proof. intros H1 H2. unfold Q2R. simpl. field. split; assumption. Qed.

Lemma calculate_k0_decreasing_temperature (T1 T2 s : R) :
  273.15 <= T1 -> T1 < T2 -> T2 <= 313.15 -> 0 <= s <= 40 ->
  calculate_k0 T2 s < calculate_k0 T1 s.
Proof.
  intros HT1 HT HT2 Hs. rewrite !calculate_k0_exact. apply exp_increasing.
  set (t1 := T1 / 100). set (t2 := T2 / 100).
  assert (H1 : 2.7315 <= t1 <= 3.1315) by (unfold t1; lra).
  assert (H2 : 2.7315 <= t2 <= 3.1315) by (unfold t2; lra).
  assert (H12 : t1 < t2) by (unfold t1, t2; lra).
  pose proof (ln_chord t1 t2 ltac:(lra) ltac:(lra)) as Hln.
  pose proof (solubility_slope t1 t2 s H1 H2 Hs) as Hslope.
  assert (Ha : 0 < / t1) by (apply Rinv_0_lt_compat; lra).
  assert (Hb : 0 < / t2) by (apply Rinv_0_lt_compat; lra).
  pose proof (solubility_difference t1 t2 s ltac:(lra) ltac:(lra)) as Hdiff.
  assert (Hneg :
    (t2 - t1) * (/ t1 * / t2)
    * (-93.4517 + 23.3585 * t2
       + s * ((t1 * t2) * (-0.023656 + 0.0047036 * (t1 + t2)))) < 0).
  { assert (Hpos : 0 < (t2 - t1) * (/ t1 * / t2))
      by (repeat apply Rmult_lt_0_compat; lra).
    nra. }
  lra.
Qed.

End SolubilityTemperature.

(** X15.  In exact arithmetic, for salinities from 0 to 40 and
    temperatures from 273.15 to 313.15 Kelvin, CO2 is less soluble in
    warmer water: [calculate_k0] (and with it [calc_k0]) falls strictly as
    the temperature rises. *)
Theorem calculate_k0_falls_with_temperature (T1 T2 salinity : R) :
  (273.15 <= T1)%R -> (T1 < T2)%R -> (T2 <= 313.15)%R -> (0 <= salinity <= 40)%R ->
  (calculate_k0 T2 salinity < calculate_k0 T1 salinity)%R /\
  (calc_k0 T2 salinity < calc_k0 T1 salinity)%R.
Proof.
  intros H1 H12 H2 Hs.
  pose proof (calculate_k0_decreasing_temperature T1 T2 salinity H1 H12 H2 Hs) as Hk.
  split; [exact Hk|exact Hk].
Qed.

Lemma calculate_k0_falls_with_temperature_witness :
  (calculate_k0 298.15 35 < calculate_k0 (F:=R) 288.15 35)%R /\
  (calc_k0 298.15 35 < calc_k0 (F:=R) 288.15 35)%R.
Proof. apply (calculate_k0_falls_with_temperature 288.15 298.15 35); lra. Defined.

(** ** The annual mean of the seasonal curves, in exact arithmetic *)

Section AnnualMean.
Local Open Scope R_scope.

Lemma series_sum_app (l1 l2 : list R) :
  series_sum (l1 ++ l2) = series_sum l1 + series_sum l2.
Proof.
  induction l1 as [|x l1 IH]; simpl; [lra|].
  rewrite IH. lra.
Qed.

Lemma series_sum_tile (a : list R) (reps : nat) :
  series_sum (tile a reps) = INR reps * series_sum a.
Proof.
  induction reps as [|r IH]; [simpl; lra|].
  rewrite S_INR. simpl tile. rewrite series_sum_app, IH. lra.
Qed.

(** The sum of a curve [a + b * g] over a list of days. *)
Lemma series_sum_affine {A : Type} (a b : R) (g : A -> R) (l : list A) :
  series_sum (fmap (fun d => a + b * g d) l)
  = a * INR (length l) + b * series_sum (fmap g l).
Proof.
  induction l as [|d l IH]; [simpl; lra|].
  change (length (d :: l)) with (S (length l)). rewrite S_INR.
  rewrite !fmap_cons. unfold series_sum in IH |- * . simpl foldr.
  rewrite IH. lra.
Qed.

(** Sines at equally spaced phases telescope. *)
Lemma sin_telescope (theta phi : R) (n : nat) :
  2 * sin (theta / 2)
  * series_sum (fmap (fun d : nat => sin (theta * INR d + phi)) (seq 0 n))
  = cos (phi - theta / 2) - cos (phi + theta * INR n - theta / 2).
Proof.
  induction n as [|n IH].
  - simpl. replace (phi + theta * 0 - theta / 2) with (phi - theta / 2) by lra. lra.
  - rewrite seq_S, fmap_app, series_sum_app, Rmult_plus_distr_l, IH.
    rewrite S_INR. simpl.
    replace (phi + theta * (INR n + 1) - theta / 2)
      with ((theta * INR n + phi) + theta / 2) by lra.
    replace (phi + theta * INR n - theta / 2)
      with ((theta * INR n + phi) - theta / 2) by lra.
    rewrite (cos_plus (theta * INR n + phi)), (cos_minus (theta * INR n + phi)).
    ring.
Qed.

(** Over a whole number of 365 days the sines of the year cancel, whatever
    the phase shift. *)
Lemma sin_year_sum (shift : Z) :
  series_sum (fmap (fun day : Z => sin (year_angle (day + shift))) (np_arange 365)) = 0.
Proof.
  pose proof PI_RGT_0 as Hpi.
  set (theta := 2 * PI / 365). set (phi := year_angle shift).
  assert (Hsum : series_sum (fmap (fun day : Z => sin (year_angle (day + shift)))
                               (np_arange 365))
                 = series_sum (fmap (fun d : nat => sin (theta * INR d + phi)) (seq 0 365))).
  { unfold np_arange. rewrite <- list_fmap_compose. f_equal.
    apply list_fmap_ext. intros _ d _. simpl. f_equal.
    unfold year_angle, theta, phi, year_angle.
    rewrite plus_IZR, <- INR_IZR_INZ. field. }
  rewrite Hsum.
  pose proof (sin_telescope theta phi 365) as Ht.
  assert (Hper : cos (phi + theta * INR 365 - theta / 2) = cos (phi - theta / 2)).
  { rewrite <- (cos_period (phi - theta / 2) 1). f_equal.
    rewrite INR_IZR_INZ. change (Z.of_nat 365) with 365%Z.
    unfold theta. simpl. field. }
  rewrite Hper, Rminus_diag in Ht.
  assert (Hs : 0 < sin (theta / 2)) by (apply sin_gt_0; unfold theta; lra).
  nra.
Qed.

Lemma temperature_one_year_sum : series_sum (temperature_one_year (F:=R)) = 365 * 15.
Proof.
  unfold temperature_one_year.
  transitivity (series_sum (fmap (fun day : Z => 15 + 7.5 * sin (year_angle (day + -180)))
                                 (np_arange 365))).
  { f_equal. }
  rewrite (series_sum_affine 15 7.5 (fun day : Z => sin (year_angle (day + -180)))).
  rewrite sin_year_sum, length_np_arange, INR_IZR_INZ.
  change (Z.of_nat 365) with 365%Z. lra.
Qed.

Lemma salinity_one_year_sum : series_sum (salinity_one_year (F:=R)) = 365 * 33.5.
Proof.
  unfold salinity_one_year.
  transitivity (series_sum (fmap (fun day : Z => 33.5 + 0.5 * sin (year_angle (day + 31)))
                                 (np_arange 365))).
  { f_equal. }
  rewrite (series_sum_affine 33.5 0.5 (fun day : Z => sin (year_angle (day + 31)))).
  rewrite sin_year_sum, length_np_arange, INR_IZR_INZ.
  change (Z.of_nat 365) with 365%Z. lra.
Qed.

End AnnualMean.

(** X16.  In exact arithmetic, for every number of years [n >= 0], the
    values of the temperature series sum to [n * 365 * 15] and those of the
    salinity series to [n * 365 * 33.5]: over whole years the sinusoid
    cancels, so the mean of each series is exactly its configured mean. *)
Theorem seasonal_annual_mean (simulation_length_years : Z) :
  (0 <= simulation_length_years)%Z ->
  exists temperature salinity : list R,
    load_seasonal_forcings simulation_length_years = Ok (temperature, salinity) /\
    series_sum temperature = (IZR simulation_length_years * 365 * 15)%R /\
    series_sum salinity = (IZR simulation_length_years * 365 * 33.5)%R.
Proof.
  intros Hn. eexists _, _.
  split; [exact (load_seasonal_forcings_ok simulation_length_years Hn)|].
  rewrite !series_sum_tile, temperature_one_year_sum, salinity_one_year_sum.
  rewrite INR_IZR_INZ, Z2Nat.id by done. split; lra.
Qed.

Lemma seasonal_annual_mean_witness :
  exists temperature salinity : list R,
    load_seasonal_forcings 2 = Ok (temperature, salinity) /\
    series_sum temperature = (2 * 365 * 15)%R /\
    series_sum salinity = (2 * 365 * 33.5)%R.
Proof. apply (seasonal_annual_mean 2). lia. Defined.

(** ** Where the dataset is read from *)

Section DataFile.

Lemma string_length_app (s1 s2 : string) :
  String.length (s1 +:+ s2) = (String.length s1 + String.length s2)%nat.
Proof.
  induction s1 as [|c s1 IH]; [done|].
  change (S (String.length (s1 +:+ s2)) = S (String.length s1 + String.length s2)).
  by rewrite IH.
Qed.

Lemma string_app_assoc (s1 s2 s3 : string) : (s1 +:+ s2) +:+ s3 = s1 +:+ (s2 +:+ s3).
Proof.
  induction s1 as [|c s1 IH]; [done|].
  change (String c ((s1 +:+ s2) +:+ s3) = String c (s1 +:+ (s2 +:+ s3))).
  by rewrite IH.
Qed.

(** The last character of [s1 ++ s2] is the last character of [s2]. *)
Lemma string_last_app (s1 s2 : string) :
  (0 < String.length s2)%nat ->
  String.get (String.length (s1 +:+ s2) - 1) (s1 +:+ s2)
  = String.get (String.length s2 - 1) s2.
Proof.
  intros Hs2. rewrite string_length_app, (String.append_correct2 s1 s2).
  f_equal. lia.
Qed.

(** Joining a relative name to a directory that is not empty and does not
    end in a slash puts one slash between them. *)
Lemma os_path_join_plain (a b : string) :
  String.prefix "/" b = false -> a <> "" ->
  String.get (String.length a - 1) a <> Some "/"%char ->
  os_path_join a b = a +:+ "/" +:+ b.
Proof.
  intros Hb Ha Hlast. unfold os_path_join. rewrite Hb.
  destruct a as [|c a]; [done|].
  rewrite bool_decide_eq_false_2 by done. reflexivity.
Qed.

Lemma os_path_join_slash (a b : string) :
  String.prefix "/" b = false ->
  String.get (String.length a - 1) a = Some "/"%char ->
  os_path_join a b = a +:+ b.
Proof.
  intros Hb Hlast. unfold os_path_join. rewrite Hb.
  rewrite bool_decide_eq_true_2 by done. by rewrite orb_true_r.
Qed.

(** Whatever [d] is, [d ++ "/indata"] and [d ++ "indata"] are not empty and
    end in [a]. *)
Lemma datadir_plain (d tail : string) :
  (0 < String.length tail)%nat ->
  String.get (String.length tail - 1) tail <> Some "/"%char ->
  d +:+ tail <> "" /\
  String.get (String.length (d +:+ tail) - 1) (d +:+ tail) <> Some "/"%char.
Proof.
  intros Hlen Hlast. split.
  - intros Heq. apply (f_equal String.length) in Heq.
    rewrite string_length_app in Heq. simpl in Heq. lia.
  - by rewrite string_last_app.
Qed.

End DataFile.

(** X17.  [load_real_data] reads one file, [indata/mercator_tseries.h5]
    under the directory of the module: the path is
    [module_dir/indata/mercator_tseries.h5] when [module_dir] is not empty
    and does not end in a slash, the same with the slash not doubled when
    it does, and the relative path [indata/mercator_tseries.h5] when
    [module_dir] is empty. *)
Theorem data_file_location (module_dir : string) :
  (module_dir = "" -> file_path module_dir = "indata/mercator_tseries.h5") /\
  (String.get (String.length module_dir - 1) module_dir = Some "/"%char ->
   file_path module_dir = module_dir +:+ "indata/mercator_tseries.h5") /\
  (module_dir <> "" ->
   String.get (String.length module_dir - 1) module_dir <> Some "/"%char ->
   file_path module_dir = module_dir +:+ "/indata/mercator_tseries.h5").
Proof.
  split; [intros ->; reflexivity|]. split.
  - intros Hlast. unfold file_path, DATADIR.
    rewrite (os_path_join_slash module_dir "indata" eq_refl Hlast).
    destruct (datadir_plain module_dir "indata") as [Hne Hl]; [simpl; lia|done|].
    rewrite (os_path_join_plain _ "mercator_tseries.h5" eq_refl Hne Hl).
    by rewrite string_app_assoc.
  - intros Hne Hlast. unfold file_path, DATADIR.
    rewrite (os_path_join_plain module_dir "indata" eq_refl Hne Hlast).
    destruct (datadir_plain module_dir "/indata") as [Hne' Hl]; [simpl; lia|done|].
    change (module_dir +:+ "/" +:+ "indata") with (module_dir +:+ "/indata").
    rewrite (os_path_join_plain _ "mercator_tseries.h5" eq_refl Hne' Hl).
    by rewrite string_app_assoc.
Qed.

Lemma data_file_location_witness :
  file_path "/opt/model/utils" = "/opt/model/utils/indata/mercator_tseries.h5".
Proof.
  apply (proj2 (proj2 (data_file_location "/opt/model/utils"))); discriminate.
Defined.

(** ** No step between the years of the historical series *)

Section SeamlessYears.
Variable module_dir : string.
Variable read_hdf : string -> pyexc + gmap string (list R).

(** In exact arithmetic the two corrected years the loader tiles start and
    end on the same value. *)
Lemma load_real_data_closed_years (prefix : string) (n : Z) df temp_col salt_col :
  (0 <= n)%Z ->
  read_hdf (file_path module_dir) = inr df ->
  df !! (prefix +:+ "temp") = Some temp_col ->
  df !! (prefix +:+ "salt") = Some salt_col ->
  (365 <= length temp_col)%nat -> (365 <= length salt_col)%nat ->
  exists (ct cs : list R) (t0 s0 : R),
    length ct = 365%nat /\ length cs = 365%nat /\
    ct !! 0%nat = Some t0 /\ ct !! 364%nat = Some t0 /\
    cs !! 0%nat = Some s0 /\ cs !! 364%nat = Some s0 /\
    load_real_data module_dir read_hdf prefix n =
      Ok (take (Z.to_nat (n * 365)) (tile ct (2 * Z.to_nat (n + 1))),
          take (Z.to_nat (n * 365)) (tile cs (2 * Z.to_nat (n + 1)))).
Proof.
  intros Hn Hdf Ht Hs Hlt Hls.
  destruct (load_real_data_ok module_dir read_hdf prefix n df temp_col salt_col)
    as (ct & cs & Hlt' & Hls' & Hct & Hcs & Hload); [done..|].
  destruct (loop_years_exact (take 365 temp_col))
    as (ct' & t0 & Et & Hct' & _ & Ht0 & Ht364); [rewrite length_take; lia|].
  destruct (loop_years_exact (take 365 salt_col))
    as (cs' & s0 & Es & Hcs' & _ & Hs0 & Hs364); [rewrite length_take; lia|].
  assert (ct' = ct) as ->.
  { rewrite Et in Hlt'. injection Hlt' as Happ. apply app_inj_1 in Happ; [tauto|lia]. }
  assert (cs' = cs) as ->.
  { rewrite Es in Hls'. injection Hls' as Happ. apply app_inj_1 in Happ; [tauto|lia]. }
  by exists ct, cs, t0, s0.
Qed.

End SeamlessYears.

(** X18.  In exact arithmetic, with the dataset in place and a positive
    number of years, the series [load_real_data] returns do not step where
    one year meets the next: the first day of every year after the first
    has the value of the last day of the year before it. *)
Theorem load_real_data_seamless
    (module_dir : string) (read_hdf : string -> pyexc + gmap string (list R))
    (prefix : string) (simulation_length_years : Z)
    (df : gmap string (list R)) (temp_col salt_col : list R) :
  (0 < simulation_length_years)%Z ->
  read_hdf (file_path module_dir) = inr df ->
  df !! (prefix +:+ "temp") = Some temp_col ->
  df !! (prefix +:+ "salt") = Some salt_col ->
  (365 <= length temp_col)%nat -> (365 <= length salt_col)%nat ->
  exists temperature salinity : list R,
    load_real_data module_dir read_hdf prefix simulation_length_years
      = Ok (temperature, salinity) /\
    forall year : nat, (Z.of_nat year + 1 < simulation_length_years)%Z ->
      (exists t : R, temperature !! (365 * year + 364)%nat = Some t /\
                     temperature !! (365 * (year + 1))%nat = Some t) /\
      (exists s : R, salinity !! (365 * year + 364)%nat = Some s /\
                     salinity !! (365 * (year + 1))%nat = Some s).
Proof.
  intros Hn Hdf Ht Hs Hlt Hls.
  destruct (load_real_data_closed_years module_dir read_hdf prefix
              simulation_length_years df temp_col salt_col)
    as (ct & cs & t0 & s0 & Hct & Hcs & Ht0 & Ht364 & Hs0 & Hs364 & Hload);
    [lia|done..|].
  eexists _, _. split; [exact Hload|].
  intros year Hy.
  assert (Hnext : (365 * (year + 1) = 365 * (year + 1) + 0)%nat) by lia.
  split.
  - exists t0. rewrite Hnext, !tiled_day by (done || lia). done.
  - exists s0. rewrite Hnext, !tiled_day by (done || lia). done.
Qed.

Lemma load_real_data_seamless_witness :
  exists temperature salinity : list R,
    load_real_data "/opt/model/utils" example_read_hdf "se_" 7
      = Ok (temperature, salinity) /\
    forall year : nat, (Z.of_nat year + 1 < 7)%Z ->
      (exists t : R, temperature !! (365 * year + 364)%nat = Some t /\
                     temperature !! (365 * (year + 1))%nat = Some t) /\
      (exists s : R, salinity !! (365 * year + 364)%nat = Some s /\
                     salinity !! (365 * (year + 1))%nat = Some s).
Proof.
  apply (load_real_data_seamless "/opt/model/utils" example_read_hdf "se_" 7
           example_dataset (replicate 365 15%R) (replicate 365 35%R)).
  - lia.
  - reflexivity.
  - vm_compute. reflexivity.
  - vm_compute. reflexivity.
  - rewrite length_replicate. lia.
  - rewrite length_replicate. lia.
Defined.

(** ** The dissociation constants and their pK, in exact arithmetic *)

Section DissociationConstants.
Local Open Scope R_scope.

(** [-log10 (10 ** -p) = p]. *)
Lemma minus_log10_Rpower (p : R) : - ln (Rpower 10 (- p)) / ln 10 = p.
Proof.
  rewrite ln_Rpower.
  assert (Hl : 0 < ln 10) by (rewrite <- ln_1; apply ln_increasing; lra).
  field. lra.
Qed.

End DissociationConstants.

(** X19.  In exact arithmetic, at every temperature above absolute zero
    and every salinity, [calc_k1] and [calc_k2] are strictly positive and taking [-log10] of
    them gives back the pK polynomials they were built from:
    [8510.63 / T - 172.4493 + 26.32996 ln T - 0.011555 S + 0.0001152 S^2]
    for K1 and
    [4226.23 / T - 59.4636 + 9.60817 ln T - 0.01781 S + 0.0001122 S^2]
    for K2. *)
Theorem dissociation_constants_pk (temp_kelvin salinity : R) :
  (0 < temp_kelvin)%R ->
  (0 < calc_k1 temp_kelvin salinity)%R /\
  (- ln (calc_k1 temp_kelvin salinity) / ln 10
   = 8510.63 / temp_kelvin - 172.4493 + 26.32996 * ln temp_kelvin
     - 0.011555 * salinity + 0.0001152 * (salinity * salinity))%R /\
  (0 < calc_k2 temp_kelvin salinity)%R /\
  (- ln (calc_k2 temp_kelvin salinity) / ln 10
   = 4226.23 / temp_kelvin - 59.4636 + 9.60817 * ln temp_kelvin
     - 0.01781 * salinity + 0.0001122 * (salinity * salinity))%R.
Proof.
  intros _. unfold calc_k1, calc_k2. cbv zeta.
  change (fpow (F:=R)) with Rpower. change (fneg (F:=R)) with Ropp.
  assert (Hten : flit (F:=R) 10.0 = 10%R) by (simpl; unfold Q2R; simpl; lra).
  rewrite Hten.
  split; [apply Rpower_pos|]. split.
  - rewrite minus_log10_Rpower. simpl. by rewrite Rmult_1_r.
  - split; [apply Rpower_pos|].
    rewrite minus_log10_Rpower. simpl. by rewrite Rmult_1_r.
Qed.

Lemma dissociation_constants_pk_witness :
  (0 < calc_k1 288.15 35)%R /\
  (- ln (calc_k1 288.15 35) / ln 10
   = 8510.63 / 288.15 - 172.4493 + 26.32996 * ln 288.15
     - 0.011555 * 35 + 0.0001152 * (35 * 35))%R /\
  (0 < calc_k2 288.15 35)%R /\
  (- ln (calc_k2 288.15 35) / ln 10
   = 4226.23 / 288.15 - 59.4636 + 9.60817 * ln 288.15
     - 0.01781 * 35 + 0.0001122 * (35 * 35))%R.
Proof. apply (dissociation_constants_pk 288.15 35). lra. Defined.
